(** * gcs_client.base: lazy resources, authenticated requests, listings

    A shallow embedding of [gcs_client/base.py] (classes [GCS], [Fillable]
    and [Listable]) and the properties the specification states about it.

    Python objects are modelled by their instance dictionary, attribute
    access by the three hooks [Fillable] overrides ([__getattribute__],
    [__getattr__], [__setattr__]), exceptions by an outcome type, and the
    two external collaborators (the fetch hook [_get_data] and the HTTP
    transport [requests.request]) by explicit oracles threaded through the
    state. *)

From Stdlib Require Import ZArith String List Bool Lia.
From stdpp Require Import base option list gmap strings fin_maps.

Local Open Scope string_scope.
Local Open Scope Z_scope.
Set Warnings "-register-all".

(** ** Python values *)

Module Py.

(** The values that flow through [base.py]: JSON data returned by the
    service, plus the few objects the classes hold.  A mapping keeps its
    entries in iteration order; its keys are pairwise distinct. *)
Inductive value : Type :=
| VNone
| VBool (b : bool)
| VInt (z : Z)
| VStr (s : string)
| VList (l : list value)
| VDict (d : list (string * value))
| VObj (id : nat)                    (* an opaque object, compared by identity *)
| VCredentials (id : nat) (authorization : string)
| VRetryParams (id : nat).

(** Exceptions.  [Http] is what [gcs_errors.create_http_exception] builds,
    [Error] is the plain [gcs_errors.Error]. *)
Inductive http_kind : Type :=
| KBadRequest | KForbidden | KNotFound | KConflict | KPreconditionFailed
| KServerError | KGeneric.

Inductive exn : Type :=
| AttributeError
| TypeError
| KeyError
| AssertionError
| RecursionError
| ConnectionError
| Http (kind : http_kind) (code : Z) (content : string)
| Error (msg : string).

Inductive outcome (A : Type) : Type :=
| Ok (a : A)
| Raise (e : exn).
Arguments Ok {A} a.
Arguments Raise {A} e.

Definition succeeds {A} (r : outcome A) : bool :=
  match r with
  | Ok _ => true
  | Raise _ => false
  end.

#[export] Instance outcome_ret : MRet outcome := fun _ a => Ok a.
#[export] Instance outcome_bind : MBind outcome := fun _ _ f m =>
  match m with
  | Ok a => f a
  | Raise e => Raise e
  end.

#[export] Instance http_kind_eq_dec : EqDecision http_kind.
Proof. solve_decision. Defined.
#[export] Instance exn_eq_dec : EqDecision exn.
Proof. solve_decision. Defined.

(** [bool(v)].  Credentials, retry configurations and other opaque objects
    define neither [__bool__] nor [__len__], so they are true. *)
Definition truthy (v : value) : bool :=
  match v with
  | VNone => false
  | VBool b => b
  | VInt z => negb (z =? 0)
  | VStr s => negb (String.eqb s "")
  | VList l => match l with [] => false | _ => true end
  | VDict d => match d with [] => false | _ => true end
  | VObj _ | VCredentials _ _ | VRetryParams _ => true
  end.

(** [v is False] *)
Definition is_False (v : value) : bool :=
  match v with
  | VBool false => true
  | _ => false
  end.

(** Lookup and update of a mapping's entries; a new key goes last. *)
Fixpoint assoc_get (k : string) (d : list (string * value)) : option value :=
  match d with
  | [] => None
  | (k', v) :: d' => if String.eqb k k' then Some v else assoc_get k d'
  end.

Fixpoint assoc_set (k : string) (v : value) (d : list (string * value))
  : list (string * value) :=
  match d with
  | [] => [(k, v)]
  | (k', v') :: d' =>
      if String.eqb k k' then (k', v) :: d' else (k', v') :: assoc_set k v d'
  end.

Definition numeric (v : value) : option Z :=
  match v with
  | VBool b => Some (if b then 1 else 0)
  | VInt z => Some z
  | _ => None
  end.

(** [a == b] *)
Fixpoint py_eq (a b : value) {struct a} : bool :=
  match a, b with
  | VNone, VNone => true
  | (VBool _ | VInt _), (VBool _ | VInt _) =>
      match numeric a, numeric b with
      | Some x, Some y => x =? y
      | _, _ => false
      end
  | VStr s, VStr t => String.eqb s t
  | VList l, VList m =>
      (fix all2 (l : list value) (m : list value) : bool :=
         match l, m with
         | [], [] => true
         | x :: l', y :: m' => py_eq x y && all2 l' m'
         | _, _ => false
         end) l m
  | VDict d, VDict e =>
      Nat.eqb (length d) (length e) &&
      (fix sub (d : list (string * value)) : bool :=
         match d with
         | [] => true
         | (k, x) :: d' =>
             match assoc_get k e with
             | Some y => py_eq x y && sub d'
             | None => false
             end
         end) d
  | VObj i, VObj j => Nat.eqb i j
  | VCredentials i _, VCredentials j _ => Nat.eqb i j
  | VRetryParams i, VRetryParams j => Nat.eqb i j
  | _, _ => false
  end.

(** [sub in s] on strings *)
Fixpoint is_substring (sub s : string) : bool :=
  String.prefix sub s ||
  match s with
  | EmptyString => false
  | String _ s' => is_substring sub s'
  end.

(** [name in c] for a string [name] *)
Definition py_contains (c : value) (name : string) : outcome bool :=
  match c with
  | VDict d => Ok (bool_decide (is_Some (assoc_get name d)))
  | VStr s => Ok (is_substring name s)
  | VList l => Ok (existsb (py_eq (VStr name)) l)
  | _ => Raise TypeError
  end.

(** [c[name]] for a string [name] *)
Definition py_getitem (c : value) (name : string) : outcome value :=
  match c with
  | VDict d =>
      match assoc_get name d with
      | Some v => Ok v
      | None => Raise KeyError
      end
  | _ => Raise TypeError
  end.

(** [c[name] = v] for a string [name]; the updated container *)
Definition py_setitem (c : value) (name : string) (v : value) : outcome value :=
  match c with
  | VDict d => Ok (VDict (assoc_set name v d))
  | _ => Raise TypeError
  end.

(** [c.get(name, default)] *)
Definition py_get (c : value) (name : string) (default : value) : outcome value :=
  match c with
  | VDict d => Ok (from_option id default (assoc_get name d))
  | _ => Raise AttributeError
  end.

(** [for x in c] *)
Definition py_iter (c : value) : outcome (list value) :=
  match c with
  | VList l => Ok l
  | VDict d => Ok (map (fun kv => VStr (fst kv)) d)
  | VStr s => Ok (map (fun a => VStr (String a EmptyString)) (list_ascii_of_string s))
  | _ => Raise TypeError
  end.

End Py.
Export Py.

Abbreviation pydict := (gmap string value).

(** ** Exceptions with state *)

(** A computation on a piece of state that returns or raises; what it did
    to the state before raising stays done. *)
Definition M (S A : Type) : Type := S → outcome A * S.

#[export] Instance M_ret {S} : MRet (M S) := fun _ a s => (Ok a, s).
#[export] Instance M_bind {S} : MBind (M S) := fun _ _ f m s =>
  match m s with
  | (Ok a, s') => f a s'
  | (Raise e, s') => (Raise e, s')
  end.

Definition raise {S A} (e : exn) : M S A := fun s => (Raise e, s).

(** [try: body except <handled>: handler] *)
Definition try_except {S A} (body : M S A) (handled : exn → bool)
    (handler : M S A) : M S A := fun s =>
  match body s with
  | (Raise e, s') => if handled e then handler s' else (Raise e, s')
  | r => r
  end.

(** ** The environment of the classes *)

(** The class attributes a subclass may override, and whatever else the
    concrete class and [object] bind ([other_attr]). *)
Class ClassAttrs : Type := {
  URL : value;
  required_attributes : value;
  other_attr : string → option value
}.

(** What [base.py] takes from elsewhere: [discovery.build('storage',
    api_version, credentials=c)], [requests.utils.quote(v, safe='')],
    [template % args], and the identity of the default retry
    configuration. *)
Class Library : Type := {
  discovery_build : value → value → value;
  quote : value → outcome string;
  percent_format : value → list string → outcome string;
  default_retry_params : nat
}.

(** The abstract [Fillable._get_data]: the outcome of its [n]-th
    invocation, counted from 0, the representation of the resource or an
    exception. *)
Class FetchHook : Type := {
  get_data : nat → outcome (list (string * value))
}.

(** The abstract [Listable._child_info]: the URL of the collection and the
    class of its members, of which the listing uses [obj_from_data]. *)
Class ChildInfo : Type := {
  Child : Type;
  child_url : string;
  child_obj_from_data : value → value → value → outcome Child
}.

(** The instance together with the number of times its fetch hook has
    been invoked so far. *)
Record world : Type := World { self : pydict; calls : nat }.

(** ** Requests and responses *)

Record request : Type := Request {
  req_op : string;
  req_url : string;
  req_params : gmap string value;
  req_headers : gmap string string;
  req_data : value
}.

(** A response of the transport; [json] is what [r.json()] gives. *)
Record response : Type := Response {
  status_code : Z;
  content : string;
  json : outcome value
}.

(** The transport: what it will answer to the requests to come, in
    order, and the requests it has been handed so far. *)
Record network : Type := Network {
  pending : list (outcome response);
  sent : list request
}.

(** ** Attribute access *)

Section base.

Context {class_ : ClassAttrs} {library : Library} {hook : FetchHook} {child_info : ChildInfo}.

(** Modelled from the spec: [common.RetryParams.get_default()], which is
    not among the sources; the process-wide default retry configuration,
    a [RetryParams] instance. *)
Definition get_default : value := VRetryParams default_retry_params.

Definition methods : list string :=
  ["__init__"; "_request"; "exists"; "obj_from_data"; "__getattribute__";
   "__getattr__"; "__setattr__"; "_fill_with_data"; "_get_data"].

(** What the classes of [base.py] bind a name to; a function of the class
    reads as an opaque bound method. *)
Definition class_attr (name : string) : option value :=
  if String.eqb name "api_version" then Some (VStr "v1")
  else if String.eqb name "_required_attributes" then Some required_attributes
  else if String.eqb name "URL" then Some URL
  else if bool_decide (name ∈ methods) then Some (VObj 0)
  else other_attr name.

(** [object.__getattribute__] on a name that is no property: the instance
    dictionary, then the class. *)
Definition object_lookup (d : pydict) (name : string) : outcome value :=
  match d !! name with
  | Some v => Ok v
  | None =>
      match class_attr name with
      | Some v => Ok v
      | None => Raise AttributeError
      end
  end.

(** The two properties of [GCS] and the attribute each getter returns. *)
Definition property_backing (name : string) : option string :=
  if String.eqb name "retry_params" then Some "_retry_params"
  else if String.eqb name "credentials" then Some "_credentials"
  else None.

(** [object.__getattribute__]; [self_read] is how the instance reads the
    attribute behind a property. *)
Definition object_getattribute (self_read : pydict → string → outcome value)
    (d : pydict) (name : string) : outcome value :=
  match property_backing name with
  | Some backing => self_read d backing
  | None => object_lookup d name
  end.

(** Attribute reads on a plain [GCS] instance. *)
Definition GCS_getattribute : pydict → string → outcome value :=
  object_getattribute object_lookup.

(** [Fillable.__getattribute__], over the inherited lookup [super]:
<<
    gcs_attrs = super(Fillable, self).__getattribute__('_gcs_attrs')
    if name in gcs_attrs:
        return gcs_attrs[name]
    return super(Fillable, self).__getattribute__(name)
>> *)
Definition Fillable_getattribute_over (super : pydict → string → outcome value)
    (d : pydict) (name : string) : outcome value :=
  gcs_attrs ← super d "_gcs_attrs";
  found ← py_contains gcs_attrs name;
  if found : bool then py_getitem gcs_attrs name else super d name.

(** A property getter runs [self._retry_params] (or [self._credentials])
    through the class's own [__getattribute__]; the attributes behind the
    properties are bound by [__init__] and never unbound. *)
Definition Fillable_getattribute : pydict → string → outcome value :=
  Fillable_getattribute_over
    (object_getattribute (Fillable_getattribute_over object_lookup)).

(** [object.__setattr__] on a name that is no property. *)
Definition dict_setattr (name : string) (v : value) (d : pydict) : outcome pydict :=
  Ok (<[name := v]> d).

(** [isinstance(v, (type(None), common.RetryParams))] *)
Definition is_retry_config (v : value) : bool :=
  match v with
  | VNone | VRetryParams _ => true
  | _ => false
  end.

Section properties.
(** [assign] is [self.<name> = v] and [read] is [self.<name>] on the
    class of the instance. *)
Variable assign : string → value → pydict → outcome pydict.
Variable read : pydict → string → outcome value.

(** [GCS.retry_params] setter *)
Definition retry_params_setter (retry_params : value) (d : pydict)
  : outcome pydict :=
  if is_retry_config retry_params
  then assign "_retry_params" retry_params d
  else Raise AssertionError.

(** [GCS.credentials] setter *)
Definition credentials_setter (v : value) (d : pydict) : outcome pydict :=
  current ← match read d "_credentials" with
            | Raise AttributeError => Ok (VBool (negb (truthy v)))
            | r => r
            end;
  if py_eq v current then Ok d
  else
    d1 ← assign "_credentials" v d;
    api_version ← read d1 "api_version";
    credentials ← read d1 "_credentials";
    assign "_service" (discovery_build api_version credentials) d1.

(** [object.__setattr__]: a property runs its setter, any other name
    is bound in the instance dictionary. *)
Definition object_setattr (name : string) (v : value) (d : pydict)
  : outcome pydict :=
  if String.eqb name "retry_params" then retry_params_setter v d
  else if String.eqb name "credentials" then credentials_setter v d
  else dict_setattr name v d.

(** [GCS.__init__] *)
Definition GCS_init (self_setattr : string → value → pydict → outcome pydict)
    (credentials retry_params : value) (d : pydict) : outcome pydict :=
  d1 ← self_setattr "credentials" credentials d;
  self_setattr "_retry_params"
    (if truthy retry_params then retry_params else get_default) d1.
End properties.

(** Assignment on a plain [GCS] instance. *)
Definition GCS_setattr : string → value → pydict → outcome pydict :=
  object_setattr dict_setattr GCS_getattribute.

(** [self._gcs_attrs], read inside [Fillable.__setattr__]; were the entry
    missing, the read would fall into [__getattr__], which reads
    [self._data_retrieved] and so comes back here without end. *)
Definition self_gcs_attrs (d : pydict) : outcome value :=
  match Fillable_getattribute d "_gcs_attrs" with
  | Raise AttributeError => Raise RecursionError
  | r => r
  end.

(** [self._gcs_attrs[name] = value].  The dictionary written to is the
    one [self._gcs_attrs] evaluates to: the instance's own, or, once a
    key [_gcs_attrs] has been stored in it, the value stored there. *)
Definition setitem_gcs_attrs (name : string) (v : value) (d : pydict)
  : outcome pydict :=
  _ ← self_gcs_attrs d;
  own ← object_lookup d "_gcs_attrs";
  shadowed ← py_contains own "_gcs_attrs";
  if shadowed : bool then
    target ← py_getitem own "_gcs_attrs";
    target' ← py_setitem target name v;
    own' ← py_setitem own "_gcs_attrs" target';
    Ok (<["_gcs_attrs" := own']> d)
  else
    own' ← py_setitem own name v;
    Ok (<["_gcs_attrs" := own']> d).

(** [Fillable.__setattr__], over the inherited assignment [super]:
<<
    if force_gcs or name in self._gcs_attrs:
        self._gcs_attrs[name] = value
    else:
        super(Fillable, self).__setattr__(name, value)
>> *)
Definition Fillable_setattr_over (super : string → value → pydict → outcome pydict)
    (name : string) (v : value) (force_gcs : bool) (d : pydict) : outcome pydict :=
  in_gcs ← (if force_gcs then Ok true
            else gcs_attrs ← self_gcs_attrs d; py_contains gcs_attrs name);
  if in_gcs : bool then setitem_gcs_attrs name v d else super name v d.

Definition Fillable_setattr : string → value → bool → pydict → outcome pydict :=
  Fillable_setattr_over
    (object_setattr (fun n v => Fillable_setattr_over dict_setattr n v false)
                    Fillable_getattribute).

(** [Fillable.__init__], on a fresh instance *)
Definition Fillable_init (credentials retry_params : value) : outcome pydict :=
  d0 ← dict_setattr "_gcs_attrs" (VDict []) ∅;
  d1 ← Fillable_setattr "_credentials" (VBool (negb (truthy credentials))) false d0;
  d2 ← GCS_init (fun n v => Fillable_setattr n v false) credentials retry_params d1;
  d3 ← Fillable_setattr "_data_retrieved" (VBool false) false d2;
  Fillable_setattr "_exists" VNone false d3.

(** ** Lazy fill *)

Definition call_get_data : M world (list (string * value)) :=
  fun w => (get_data (calls w), World (self w) (S (calls w))).

(** [self.<name> = v] and [Fillable.__setattr__(self, name, v, force_gcs)] *)
Definition setattr (name : string) (v : value) (force_gcs : bool) : M world () :=
  fun w =>
    match Fillable_setattr name v force_gcs (self w) with
    | Ok d => (Ok (), World d (calls w))
    | Raise e => (Raise e, w)
    end.

(** An attribute read as Python performs it: [__getattribute__], and
    [__getattr__] when that raises [AttributeError]. *)
Definition getattr_over (getattr__ : string → M world value) (name : string)
  : M world value :=
  fun w =>
    match Fillable_getattribute (self w) name with
    | Raise AttributeError => getattr__ name w
    | r => (r, w)
    end.

(** Whether a read of [name] is answered by the instance itself, from
    [_gcs_attrs] or from its dictionary, rather than by the class. *)
Definition on_instance (d : pydict) (name : string) : bool :=
  match gcs_attrs ← object_lookup d "_gcs_attrs"; py_contains gcs_attrs name with
  | Ok true => true
  | _ => bool_decide (is_Some (d !! name))
  end.

(** Evaluating [self.<name>(...)] down to the call, for a function of
    the class: the attribute is read, and the call goes through when the
    read reached the class; a value bound on the instance is data and
    cannot be called. *)
Definition callable (name : string) : M world () :=
  fun w => if on_instance (self w) name then (Raise TypeError, w) else (Ok (), w).

Definition method_call (getattr_ : string → M world value) (name : string)
  : M world () :=
  getattr_ name;; callable name.

(** The loop of [Fillable._fill_with_data]:
<<
    for k, v in data.items():
        if isinstance(v, dict) and len(v) == 1:
            v = tuple(v.values())[0]
        self.__setattr__(k, v, True)
>> *)
Fixpoint fill_items (getattr_ : string → M world value)
    (items : list (string * value)) : M world () :=
  match items with
  | [] => mret ()
  | (k, v) :: rest =>
      let v :=
        match v with
        | VDict d => if Nat.eqb (length d) 1 then hd v (map snd d) else v
        | _ => v
        end in
      method_call getattr_ "__setattr__";;
      setattr k v true;;
      fill_items getattr_ rest
  end.

(** [Fillable._fill_with_data] *)
Definition fill_with_data (getattr_ : string → M world value)
    (data : list (string * value)) : M world () :=
  setattr "_data_retrieved" (VBool true) false;;
  fill_items getattr_ data.

Definition is_NotFound (e : exn) : bool :=
  match e with
  | Http KNotFound _ _ => true
  | _ => false
  end.

(** [Fillable.__getattr__]; [fuel] bounds the depth of the recursion
    through [getattr(self, name)], as the interpreter's stack does.
<<
    if self._data_retrieved or self._exists is False:
        raise AttributeError
    try:
        data = self._get_data()
        self._exists = True
    except gcs_errors.NotFound:
        self._exists = False
        raise AttributeError
    self._fill_with_data(data)
    return getattr(self, name)
>> *)
Fixpoint Fillable_getattr (fuel : nat) (name : string) : M world value :=
  match fuel with
  | O => raise RecursionError
  | S fuel' =>
      let getattr_ := getattr_over (Fillable_getattr fuel') in
      data_retrieved ← getattr_ "_data_retrieved";
      gone ← (if truthy data_retrieved then mret true
              else exists_ ← getattr_ "_exists"; mret (is_False exists_));
      if gone : bool then raise AttributeError
      else
        data ← try_except
                 (method_call getattr_ "_get_data";;
                  data ← call_get_data;
                  setattr "_exists" (VBool true) false;;
                  mret data)
                 is_NotFound
                 (setattr "_exists" (VBool false) false;;
                  raise AttributeError);
        method_call getattr_ "_fill_with_data";;
        fill_with_data getattr_ data;;
        getattr_ name
  end.

(** Reading [obj.<name>] from outside. *)
Definition getattr (fuel : nat) (name : string) : M world value :=
  getattr_over (Fillable_getattr fuel) name.

(** [Fillable.obj_from_data] *)
Definition obj_from_data (fuel : nat) (data : list (string * value))
    (credentials retry_params : value) (calls : nat) : outcome () * world :=
  match Fillable_init credentials retry_params with
  | Ok obj =>
      (method_call (getattr fuel) "_fill_with_data";;
       fill_with_data (getattr fuel) data) (World obj calls)
  | Raise e => (Raise e, World ∅ calls)
  end.

(** Reading several attributes one after the other. *)
Fixpoint getattrs (fuel : nat) (names : list string) (w : world)
  : list (outcome value) * world :=
  match names with
  | [] => ([], w)
  | name :: names =>
      let '(r, w1) := getattr fuel name w in
      let '(rs, w2) := getattrs fuel names w1 in
      (r :: rs, w2)
  end.

(** *** States of a lazy resource *)

(** [name] is not bound on the instance: [__getattribute__] raises
    [AttributeError], which is when Python turns to [__getattr__]. *)
Definition unbound (d : pydict) (name : string) : Prop :=
  Fillable_getattribute d name = Raise AttributeError.

(** An instance as [Fillable.__init__] leaves it, whatever else has been
    assigned on it since: nothing fetched, existence unknown, and the
    functions of the class not hidden by instance attributes. *)
Definition unfilled (d : pydict) : Prop :=
  d !! "_gcs_attrs" = Some (VDict []) ∧
  d !! "_data_retrieved" = Some (VBool false) ∧
  d !! "_exists" = Some VNone ∧
  d !! "_get_data" = None ∧
  d !! "_fill_with_data" = None ∧
  d !! "__setattr__" = None.

(** Populated: [self._data_retrieved] reads as [True]. *)
Definition settled (d : pydict) : Prop :=
  ∃ s, d !! "_gcs_attrs" = Some (VDict s) ∧
       assoc_get "_data_retrieved" s = None ∧
       d !! "_data_retrieved" = Some (VBool true).

(** Confirmed absent: not populated, and [self._exists] reads as [False]. *)
Definition gone (d : pydict) : Prop :=
  ∃ s, d !! "_gcs_attrs" = Some (VDict s) ∧
       assoc_get "_data_retrieved" s = None ∧
       assoc_get "_exists" s = None ∧
       d !! "_data_retrieved" = Some (VBool false) ∧
       d !! "_exists" = Some (VBool false).

(** A computation that never lowers the count of hook invocations. *)
Definition steady {A} (m : M world A) : Prop :=
  ∀ w, (calls w ≤ calls (m w).2)%nat.

(** The names [Fillable] keeps its own state and functions under. *)
Definition machinery : list string :=
  ["_gcs_attrs"; "_data_retrieved"; "_exists"; "_get_data";
   "_fill_with_data"; "__setattr__"].

(** *** The merge, in the words of the specification *)

(** A value that is a mapping with exactly one entry is replaced by that
    entry's value; any other value stays as it is. *)
Definition flatten_single (v : value) : value :=
  match v with
  | VDict [(_, x)] => x
  | _ => v
  end.

(** Every key, in order, is bound to its value through the instance's
    [__setattr__] with [force_gcs]. *)
Fixpoint bind_items (getattr_ : string → M world value)
    (items : list (string * value)) : M world () :=
  match items with
  | [] => mret ()
  | (k, v) :: rest =>
      method_call getattr_ "__setattr__";;
      setattr k v true;;
      bind_items getattr_ rest
  end.

(** The instance is marked populated, then every key of the representation
    is bound to its flattened value. *)
Definition merge_flattened (getattr_ : string → M world value)
    (data : list (string * value)) : M world () :=
  setattr "_data_retrieved" (VBool true) false;;
  bind_items getattr_ (map (fun kv => (fst kv, flatten_single (snd kv))) data).

(** The entries [_gcs_attrs] holds after merging [data] into [s]. *)
Definition merged (s data : list (string * value)) : list (string * value) :=
  foldl (fun s kv => assoc_set (fst kv) (flatten_single (snd kv)) s) s data.

(** ** Requests *)

(** [requests.request(op, url, params=..., headers=..., data=...)]; when
    nothing answers, the connection fails. *)
Definition requests_request (rq : request) : M network response :=
  fun net =>
    match pending net with
    | [] => (Raise ConnectionError, Network [] (sent net ++ [rq]))
    | r :: rest => (r, Network rest (sent net ++ [rq]))
    end.

Definition lift {S A} (r : outcome A) : M S A := fun s => (r, s).

(** Modelled from the spec: [gcs_errors.create_http_exception], which
    is not among the sources; the mapping of a status code outside the
    accepted ones to a typed error: 400 BadRequest, 401 and 403 Forbidden, 404 NotFound, 409 Conflict,
    412 PreconditionFailed, 5xx ServerError, anything else the generic
    error carrying the status code and the raw body. *)
Definition create_http_exception (status : Z) (body : string) : exn :=
  Http (if status =? 400 then KBadRequest
        else if (status =? 401) || (status =? 403) then KForbidden
        else if status =? 404 then KNotFound
        else if status =? 409 then KConflict
        else if status =? 412 then KPreconditionFailed
        else if (500 <=? status) && (status <? 600) then KServerError
        else KGeneric) status body.

(** [x.authorization] *)
Definition authorization (x : value) : outcome string :=
  match x with
  | VCredentials _ a => Ok a
  | _ => Raise AttributeError
  end.

(** The URL of the resource:
<<
    format_args = tuple(requests.utils.quote(getattr(self, x), safe='')
                        for x in self._required_attributes
                        if x not in GCS._required_attributes)
    url = self.URL % format_args
>> *)
Definition format_url (self : pydict) : outcome string :=
  attrs ← GCS_getattribute self "_required_attributes";
  names ← py_iter attrs;
  format_args ←
    mapM (fun x => match x with
                   | VStr n => v ← GCS_getattribute self n; quote v
                   | _ => Raise TypeError
                   end)
         (List.filter (fun x => negb (existsb (py_eq x) [VStr "credentials"])) names);
  template ← GCS_getattribute self "URL";
  percent_format template format_args.

(** The request [GCS._request] hands to the transport. *)
Definition build_request (self : pydict) (op : string)
    (headers : option (gmap string string)) (body : value)
    (url : option string) (params : gmap string value) : outcome request :=
  let headers :=
    match headers with
    | Some h => if bool_decide (h = ∅) then ∅ else h
    | None => ∅
    end in
  credentials ← GCS_getattribute self "_credentials";
  auth ← authorization credentials;
  let headers := <["Authorization" := auth]> headers in
  url ← match url with
        | Some u => if String.eqb u "" then format_url self else Ok u
        | None => format_url self
        end;
  Ok (Request op url params headers body).

(** [GCS._request] on an instance of a class without [__getattr__]:
<<
    r = requests.request(op, url, params=params, headers=headers,
                         data=body)
    if r.status_code not in ok:
        raise gcs_errors.create_http_exception(r.status_code, r.content)
    if parse:
        try:
            r.json()
        except Exception:
            raise gcs_errors.Error('GCS response is not JSON: %s' %
                                   r.content)
    return r
>> *)
Definition GCS_request (self : pydict) (op : string)
    (headers : option (gmap string string)) (body : value) (parse : bool)
    (ok : list Z) (url : option string) (params : gmap string value)
  : M network response :=
  rq ← lift (build_request self op headers body url params);
  r ← requests_request rq;
  if negb (bool_decide (status_code r ∈ ok))
  then raise (create_http_exception (status_code r) (content r))
  else if parse then
    match json r with
    | Ok _ => mret r
    | Raise _ => raise (Error ("GCS response is not JSON: " ++ content r))
    end
  else mret r.

Definition is_BadRequest (e : exn) : bool :=
  match e with
  | Http KBadRequest _ _ => true
  | _ => false
  end.

(** The body of [GCS.exists]; [common.is_complete] and [common.retry],
    which wrap it, admit a complete resource and run the body.
<<
    try:
        self._request(op='HEAD')
    except (gcs_errors.NotFound, gcs_errors.BadRequest):
        return False
    return True
>> *)
Definition GCS_exists (self : pydict) : M network bool :=
  try_except
    (GCS_request self "HEAD" None VNone false [200] None ∅;; mret true)
    (fun e => is_NotFound e || is_BadRequest e)
    (mret false).

(** ** Listings *)

(** The loop of [Listable._list]; each turn takes one answer from the
    transport, so [fuel] beyond the number of pending answers is never
    used up.
<<
    while True:
        r = self._request(parse=True, url=url, **kwargs).json()
        result.extend(child_cls.obj_from_data(b, self.credentials,
                                              self.retry_params)
                      for b in r.get('items', []))
        kwargs['pageToken'] = r.get('nextPageToken')
        if not kwargs['pageToken']:
            break
    return result
>> *)
Fixpoint list_loop (fuel : nat) (self : pydict) (kwargs : gmap string value)
    (result : list Child) : M network (list Child) :=
  match fuel with
  | O => raise RecursionError
  | S fuel' =>
      r ← GCS_request self "GET" None VNone true [200] (Some child_url) kwargs;
      r ← lift (json r);
      items ← lift (py_get r "items" (VList []));
      bs ← lift (py_iter items);
      children ← lift (mapM (fun b =>
                    credentials ← GCS_getattribute self "credentials";
                    retry_params ← GCS_getattribute self "retry_params";
                    child_obj_from_data b credentials retry_params) bs);
      let result := (result ++ children)%list in
      token ← lift (py_get r "nextPageToken" VNone);
      let kwargs := <["pageToken" := token]> kwargs in
      if negb (truthy token) then mret result
      else list_loop fuel' self kwargs result
  end.


(** *** Pages of a listing *)

(** The members a page's envelope lists, constructed in order, and its
    continuation token ([None] when the envelope has none). *)
Definition page_children (self : pydict) (envelope : value) : outcome (list Child) :=
  items ← py_get envelope "items" (VList []);
  bs ← py_iter items;
  mapM (fun b =>
          credentials ← GCS_getattribute self "credentials";
          retry_params ← GCS_getattribute self "retry_params";
          child_obj_from_data b credentials retry_params) bs.







End base.

(** ** Names outside the instance dictionary *)

(** The names every object answers through data descriptors of [object]
    itself; assigning them does not bind an entry of the instance
    dictionary, and reading [__dict__] gives that dictionary.  They are
    outside this model. *)
Definition interpreter_attrs : list string :=
  ["__class__"; "__dict__"; "__weakref__"].

(** ** Reads and assignments, one after the other *)

(** What a user does to a resource: [obj.<name>] and [obj.<name> = v]. *)
Inductive action : Type :=
| Read (name : string)
| Assign (name : string) (v : value).

Section actions.

Context {class_ : ClassAttrs} {library : Library} {hook : FetchHook}.

(** The instance and the count of fetches after an action, whether it
    returned or raised. *)
Definition act (fuel : nat) (a : action) (w : world) : world :=
  match a with
  | Read name => (getattr fuel name w).2
  | Assign name v => (setattr name v false w).2
  end.

Definition run (fuel : nat) (actions : list action) (w : world) : world :=
  foldl (fun w a => act fuel a w) w actions.

(** An action that does not assign one of the names the class keeps its
    own state and functions under, a property, or one of the
    interpreter's own names. *)
Definition ordinary (a : action) : Prop :=
  match a with
  | Read _ => True
  | Assign name _ =>
      (name ∉ machinery) ∧ property_backing name = None ∧ name ∉ interpreter_attrs
  end.

(** An instance that is populated or confirmed absent, and whose fetched
    attributes do not hide [_gcs_attrs]. *)
Definition closed (d : pydict) : Prop :=
  (settled d ∨ gone d) ∧
  ∃ s, d !! "_gcs_attrs" = Some (VDict s) ∧ assoc_get "_gcs_attrs" s = None.

End actions.

(** ** Members of a listing that are lazy resources *)

Section lazy_children.

Context {class_ : ClassAttrs} {library : Library} {hook : FetchHook}.

(** A [_child_info] whose class of members is a [Fillable]: a member is
    what [obj_from_data] constructs from an item of the page; an item
    that is no mapping has no [items()]. *)
Definition lazy_children (url : string) : ChildInfo := {|
  Child := pydict;
  child_url := url;
  child_obj_from_data := fun b credentials retry_params =>
    match b with
    | VDict data =>
        match obj_from_data 1 data credentials retry_params 0 with
        | (Ok _, w) => Ok (self w)
        | (Raise e, _) => Raise e
        end
    | _ => Raise AttributeError
    end
|}.

End lazy_children.

(** The names under which an instance keeps its state, its credentials
    and its retry configuration, and an item of a page that defines none
    of them (and no key twice). *)
Definition own_names : list string :=
  ["__setattr__"; "_gcs_attrs"; "_data_retrieved"; "credentials"; "_credentials";
   "retry_params"; "_retry_params"].

Definition plain_item (b : value) : Prop :=
  ∀ data, b = VDict data → NoDup data.*1 ∧ ∀ k, k ∈ own_names → k ∉ data.*1.

(** ** Projects *)

(** [a + b], on the values of this development: strings and lists are
    concatenated, numbers added; no other pair of operands has a sum, the
    objects held by the classes defining no addition. *)
Definition py_add (a b : value) : outcome value :=
  match a, b with
  | VStr s, VStr t => Ok (VStr (s ++ t))
  | VList l, VList m => Ok (VList (l ++ m))
  | (VBool _ | VInt _), (VBool _ | VInt _) =>
      match numeric a, numeric b with
      | Some x, Some y => Ok (VInt (x + y))
      | _, _ => Raise TypeError
      end
  | _, _ => Raise TypeError
  end.

(** The property [Project.default_bucket_name] of [gcs_client/project.py],
    as a function of what [self.project_id] evaluates to:
<<
    if not self.project_id:
        return None
    return self.project_id + '.appspot.com'
>> *)
Definition default_bucket_name (project_id : value) : outcome value :=
  if negb (truthy project_id) then Ok VNone
  else py_add project_id (VStr ".appspot.com").

(** ** A concrete setting *)

(** The base classes as they are written, a library whose quoting and
    formatting leave strings alone, and resources built by the
    constructors; the examples of the test suite and of the
    specification run on these. *)
Definition base_class : ClassAttrs := {|
  URL := VStr "https://www.googleapis.com/storage/v1/b";
  required_attributes := VList [VStr "credentials"];
  other_attr := fun _ => None
|}.

Definition plain_library : Library := {|
  discovery_build := fun _ _ => VObj 1;
  quote := fun v => match v with VStr s => Ok s | _ => Raise TypeError end;
  percent_format := fun t _ => match t with VStr s => Ok s | _ => Raise TypeError end;
  default_retry_params := 0%nat
|}.

Definition some_credentials : value := VCredentials 2 "Bearer abc".

(** [Fillable(some_credentials)] *)
Definition fresh : pydict :=
  match Fillable_init (class_ := base_class) (library := plain_library)
          some_credentials VNone with
  | Ok d => d
  | Raise _ => ∅
  end.

(** [GCS(some_credentials)] *)
Definition plain : pydict :=
  match GCS_init (library := plain_library)
          (GCS_setattr (class_ := base_class) (library := plain_library))
          some_credentials VNone ∅ with
  | Ok d => d
  | Raise _ => ∅
  end.

(** Fetch hooks: one that returns a representation, one that finds
    nothing, one that is refused, and three whose representation defines a
    name the class uses itself. *)
Definition hook_found : FetchHook := {|
  get_data := fun _ => Ok [("size", VDict [("precise", VInt 5)]); ("name", VStr "n")]
|}.

Definition hook_not_found : FetchHook := {|
  get_data := fun _ => Raise (Http KNotFound 404 "")
|}.

Definition hook_bad_request : FetchHook := {|
  get_data := fun _ => Raise (Http KBadRequest 400 "")
|}.




Definition item (name : string) : value := VDict [("name", VStr name)].







Definition forbidden : response :=
  Response 403 "Forbidden" (Raise (Error "no JSON")).

(** A lazy resource after a read that found the resource absent. *)
Definition absent : world :=
  (getattr (class_ := base_class) (library := plain_library) (hook := hook_not_found)
     1 "name" (World fresh 0)).2.

(** * Properties *)

Section properties_of_base.

Context {class_ : ClassAttrs} {library : Library} {hook : FetchHook} {child_info : ChildInfo}.

Lemma bind_eq {S A B} (m : M S A) (f : A → M S B) s :
  (m ≫= f) s = match m s with (Ok a, s') => f a s' | (Raise e, s') => (Raise e, s') end.
Proof. reflexivity. Qed.

Lemma class_attr_method name :
  name ∈ methods → class_attr name = Some (VObj 0).
Proof.
  intros H. unfold methods in H. 
  repeat (apply elem_of_cons in H as [->|H]; [reflexivity|]).
  by apply elem_of_nil in H.
Qed.


Lemma object_lookup_dict d name v : d !! name = Some v → object_lookup d name = Ok v.
Proof. intros H. unfold object_lookup. by rewrite H. Qed.

Lemma object_getattribute_plain r d name :
  property_backing name = None → object_getattribute r d name = object_lookup d name.
Proof. intros H. unfold object_getattribute. by rewrite H. Qed.

Lemma getattribute_store d s name :
  d !! "_gcs_attrs" = Some (VDict s) →
  Fillable_getattribute d name =
    match assoc_get name s with
    | Some v => Ok v
    | None => object_getattribute (Fillable_getattribute_over object_lookup) d name
    end.
Proof.
  intros Hs. unfold Fillable_getattribute, Fillable_getattribute_over at 1.
  rewrite (object_getattribute_plain _ d "_gcs_attrs") by reflexivity.
  rewrite (object_lookup_dict _ _ _ Hs). 
  change (Ok (VDict s) ≫= ?f) with (f (VDict s)). cbv beta.
  unfold py_contains, py_getitem.
  destruct (assoc_get name s) eqn:E.
  - rewrite bool_decide_eq_true_2 by eauto. reflexivity.
  - rewrite bool_decide_eq_false_2 by (intros [? ?]; discriminate). reflexivity.
Qed.

(* not a property, not in store: dictionary then class *)
Lemma getattribute_plain d s name :
  d !! "_gcs_attrs" = Some (VDict s) → assoc_get name s = None →
  property_backing name = None →
  Fillable_getattribute d name = object_lookup d name.
Proof.
  intros Hs Hn Hp. rewrite (getattribute_store _ _ _ Hs), Hn.
  by apply object_getattribute_plain.
Qed.

Lemma getattribute_ok_or_missing d s name :
  d !! "_gcs_attrs" = Some (VDict s) →
  (∃ v, Fillable_getattribute d name = Ok v) ∨ Fillable_getattribute d name = Raise AttributeError.
Proof.
  intros Hs. rewrite (getattribute_store _ _ _ Hs).
  destruct (assoc_get name s); [eauto|].
  unfold object_getattribute. 
  assert (∀ n, (∃ v, Fillable_getattribute_over object_lookup d n = Ok v) ∨
               Fillable_getattribute_over object_lookup d n = Raise AttributeError) as Hb.
  { intros n. unfold Fillable_getattribute_over. rewrite (object_lookup_dict _ _ _ Hs).
    change (Ok (VDict s) ≫= ?f) with (f (VDict s)). cbv beta.
    unfold py_contains, py_getitem. destruct (assoc_get n s) eqn:E.
    - rewrite bool_decide_eq_true_2 by eauto. left. eexists. reflexivity.
    - rewrite bool_decide_eq_false_2 by (intros [? ?]; discriminate). simpl.
      unfold object_lookup. destruct (d !! n); [eauto|]. destruct class_attr; eauto. }
  destruct (property_backing name); [apply Hb|].
  unfold object_lookup. destruct (d !! name); [eauto|]. destruct class_attr; eauto.
Qed.

Lemma assoc_get_set_eq k v s : assoc_get k (assoc_set k v s) = Some v.
Proof.
  induction s as [|[k' v'] s IH]; simpl.
  - by rewrite String.eqb_refl.
  - destruct (String.eqb k k') eqn:E; simpl; rewrite E; auto.
Qed.

Lemma assoc_get_set_ne k k' v s : k ≠ k' → assoc_get k' (assoc_set k v s) = assoc_get k' s.
Proof.
  intros Hne. induction s as [|[k0 v0] s IH]; simpl.
  - destruct (String.eqb k' k) eqn:E; [|done]. apply String.eqb_eq in E. congruence.
  - destruct (String.eqb k k0) eqn:E; simpl.
    + apply String.eqb_eq in E. subst k0.
      destruct (String.eqb k' k) eqn:E'; [|done]. apply String.eqb_eq in E'. congruence.
    + by rewrite IH.
Qed.

Lemma self_gcs_attrs_store d s :
  d !! "_gcs_attrs" = Some (VDict s) →
  self_gcs_attrs d =
    Ok (from_option id (VDict s) (assoc_get "_gcs_attrs" s)).
Proof.
  intros Hs. unfold self_gcs_attrs. rewrite (getattribute_store _ _ _ Hs).
  destruct (assoc_get "_gcs_attrs" s); [done|].
  rewrite object_getattribute_plain by reflexivity.
  by rewrite (object_lookup_dict _ _ _ Hs).
Qed.

Lemma setitem_gcs_attrs_own d s name v :
  d !! "_gcs_attrs" = Some (VDict s) → assoc_get "_gcs_attrs" s = None →
  setitem_gcs_attrs name v d =
    Ok (<["_gcs_attrs" := VDict (assoc_set name v s)]> d).
Proof.
  intros Hs Hn. unfold setitem_gcs_attrs.
  rewrite (self_gcs_attrs_store _ _ Hs), (object_lookup_dict _ _ _ Hs), Hn.
  simpl. unfold mbind, outcome_bind. simpl. rewrite Hn.
  rewrite bool_decide_eq_false_2 by (intros [? ?]; discriminate). reflexivity.
Qed.


Lemma Fsetattr_forced d name v :
  Fillable_setattr name v true d = setitem_gcs_attrs name v d.
Proof. reflexivity. Qed.

Lemma Fsetattr_dict d s name v :
  d !! "_gcs_attrs" = Some (VDict s) →
  assoc_get "_gcs_attrs" s = None → assoc_get name s = None →
  name ≠ "retry_params" → name ≠ "credentials" →
  Fillable_setattr name v false d = Ok (<[name := v]> d).
Proof.
  intros Hs Hg Hn H1 H2. unfold Fillable_setattr, Fillable_setattr_over at 1.
  rewrite (self_gcs_attrs_store _ _ Hs), Hg. simpl.
  unfold mbind, outcome_bind. simpl. rewrite Hn.
  rewrite bool_decide_eq_false_2 by (intros [? ?]; discriminate).
  unfold object_setattr.
  apply String.eqb_neq in H1, H2. by rewrite H1, H2.
Qed.


Lemma getattr_over_hit g name w v :
  Fillable_getattribute (self w) name = Ok v →
  getattr_over g name w = (Ok v, w).
Proof. intros H. unfold getattr_over. by rewrite H. Qed.

Lemma getattr_over_miss g name w :
  unbound (self w) name →
  getattr_over g name w = g name w.
Proof. intros H. unfold getattr_over. by rewrite H. Qed.

Lemma setattr_is_method : "__setattr__" ∈ methods.
Proof. apply list_elem_of_In. simpl. auto 20. Qed.
Lemma get_data_is_method : "_get_data" ∈ methods.
Proof. apply list_elem_of_In. simpl. auto 20. Qed.
Lemma fill_with_data_is_method : "_fill_with_data" ∈ methods.
Proof. apply list_elem_of_In. simpl. auto 20. Qed.

Lemma methods_no_property name : name ∈ methods → property_backing name = None.
Proof.
  intros H. unfold methods in H.
  repeat (apply elem_of_cons in H as [->|H]; [reflexivity|]).
  by apply elem_of_nil in H.
Qed.

Lemma on_instance_store d s name :
  d !! "_gcs_attrs" = Some (VDict s) →
  on_instance d name =
    bool_decide (is_Some (assoc_get name s)) || bool_decide (is_Some (d !! name)).
Proof.
  intros Hs. unfold on_instance. rewrite (object_lookup_dict _ _ _ Hs). simpl.
  unfold mbind, outcome_bind. simpl. by destruct (bool_decide (is_Some (assoc_get name s))).
Qed.

(** Calling a function of the class: the read never misses. *)
Lemma method_call_store g name w s :
  self w !! "_gcs_attrs" = Some (VDict s) → name ∈ methods →
  method_call (getattr_over g) name w =
    (if on_instance (self w) name
     then Raise TypeError else Ok (), w).
Proof.
  intros Hs Hm. unfold method_call. rewrite bind_eq.
  assert (∃ v, Fillable_getattribute (self w) name = Ok v) as [v Hv].
  { rewrite (getattribute_store _ _ _ Hs). destruct (assoc_get name s); [eauto|].
    rewrite object_getattribute_plain by by apply methods_no_property.
    unfold object_lookup. destruct (self w !! name); [eauto|].
    rewrite class_attr_method by done. eauto. }
  rewrite (getattr_over_hit _ _ _ _ Hv). unfold callable.
  by destruct on_instance.
Qed.

Lemma world_eta w : World (self w) (calls w) = w.
Proof. by destruct w. Qed.

Lemma msetattr_eq name v force w :
  setattr name v force w =
    match Fillable_setattr name v force (self w) with
    | Ok d => (Ok (), World d (calls w))
    | Raise e => (Raise e, w)
    end.
Proof. reflexivity. Qed.


Lemma method_call_class g name w s :
  self w !! "_gcs_attrs" = Some (VDict s) → name ∈ methods →
  assoc_get name s = None → self w !! name = None →
  method_call (getattr_over g) name w = (Ok (), w).
Proof.
  intros Hs Hm Hn Hd. rewrite (method_call_store _ _ _ _ Hs Hm).
  rewrite (on_instance_store _ _ _ Hs), Hn, Hd.
  rewrite !bool_decide_eq_false_2 by (intros [? ?]; discriminate). done.
Qed.

(** What the first read of an unbound attribute does on an instance that
    has not been filled, by the answer of the fetch hook. *)
Lemma getattr_unfilled d c name fuel :
  unfilled d → unbound d name →
  getattr (S fuel) name (World d c) =
    match get_data c with
    | Raise e =>
        if is_NotFound e
        then (Raise AttributeError, World (<["_exists" := VBool false]> d) (S c))
        else (Raise e, World d (S c))
    | Ok data =>
        (fill_items (getattr_over (Fillable_getattr fuel)) data;;
         getattr_over (Fillable_getattr fuel) name)
          (World (<["_data_retrieved" := VBool true]> (<["_exists" := VBool true]> d)) (S c))
    end.
Proof.
  intros (Hs & Hdr & Hex & Hgd & Hfd & Hsa) Hname.
  unfold getattr. rewrite getattr_over_miss by done.
  cbn [Fillable_getattr].
  assert (Fillable_getattribute d "_data_retrieved" = Ok (VBool false)) as Hr1.
  { rewrite (getattribute_plain _ _ _ Hs) by done. by apply object_lookup_dict. }
  assert (Fillable_getattribute d "_exists" = Ok VNone) as Hr2.
  { rewrite (getattribute_plain _ _ _ Hs) by done. by apply object_lookup_dict. }
  rewrite bind_eq, (getattr_over_hit _ _ (World d c) _ Hr1).
  cbn [truthy]. rewrite bind_eq, bind_eq, (getattr_over_hit _ _ (World d c) _ Hr2).
  unfold mret at 1, M_ret at 1. cbn [is_False]. rewrite bind_eq. unfold try_except at 1.
  rewrite bind_eq, (method_call_class _ _ (World d c) [] Hs get_data_is_method) by done.
  rewrite bind_eq. unfold call_get_data at 1. cbn [self calls].
  destruct (get_data c) as [data|e].
  - rewrite bind_eq, msetattr_eq. cbn [self calls].
    rewrite (Fsetattr_dict _ _ _ _ Hs) by done.
    unfold mret at 1, M_ret at 1.
    set (d1 := <["_exists" := VBool true]> d).
    assert (d1 !! "_gcs_attrs" = Some (VDict [])) as Hs1 by by (unfold d1; rewrite lookup_insert_ne).
    rewrite bind_eq, (method_call_class _ _ (World d1 (S c)) [] Hs1 fill_with_data_is_method)
      by first [done | by (unfold d1; cbn [self]; rewrite lookup_insert_ne)].
    unfold fill_with_data. rewrite bind_eq, bind_eq, msetattr_eq. cbn [self calls].
    rewrite (Fsetattr_dict _ _ _ _ Hs1) by done.
    rewrite bind_eq. reflexivity.
  - destruct (is_NotFound e); [|done].
    rewrite bind_eq, msetattr_eq. cbn [self calls].
    rewrite (Fsetattr_dict _ _ _ _ Hs) by done. reflexivity.
Qed.

Lemma Fgetattr_settled w name fuel :
  settled (self w) → Fillable_getattr (S fuel) name w = (Raise AttributeError, w).
Proof.
  intros (s & Hs & Hn & Hd). cbn [Fillable_getattr].
  assert (Fillable_getattribute (self w) "_data_retrieved" = Ok (VBool true)) as Hr.
  { rewrite (getattribute_plain _ _ _ Hs) by done. by apply object_lookup_dict. }
  by rewrite bind_eq, (getattr_over_hit _ _ _ _ Hr).
Qed.

Lemma Fgetattr_gone w name fuel :
  gone (self w) → Fillable_getattr (S fuel) name w = (Raise AttributeError, w).
Proof.
  intros (s & Hs & Hn & Hn' & Hd & He). cbn [Fillable_getattr].
  assert (Fillable_getattribute (self w) "_data_retrieved" = Ok (VBool false)) as Hr.
  { rewrite (getattribute_plain _ _ _ Hs) by done. by apply object_lookup_dict. }
  assert (Fillable_getattribute (self w) "_exists" = Ok (VBool false)) as Hr'.
  { rewrite (getattribute_plain _ _ _ Hs) by done. by apply object_lookup_dict. }
  rewrite bind_eq, (getattr_over_hit _ _ _ _ Hr). cbn [truthy].
  by rewrite bind_eq, bind_eq, (getattr_over_hit _ _ _ _ Hr').
Qed.

(** Once no fetch can happen any more, reads of unbound attributes fail
    and leave everything as it is. *)
Lemma getattrs_closed w names fuel :
  settled (self w) ∨ gone (self w) →
  Forall (unbound (self w)) names →
  getattrs (S fuel) names w = (map (λ _, Raise AttributeError) names, w).
Proof.
  intros Hw Hnames. induction Hnames as [|name names Hname _ IH]; [done|].
  cbn [getattrs map]. unfold getattr. rewrite getattr_over_miss by done.
  destruct Hw as [Hw|Hw].
  - rewrite Fgetattr_settled by done. fold getattr. by rewrite IH.
  - rewrite Fgetattr_gone by done. fold getattr. by rewrite IH.
Qed.



(** *** The fetch hook is only ever invoked, never un-invoked *)

Lemma steady_ret {A} (a : A) : steady (mret a).
Proof. intros w. simpl. lia. Qed.

Lemma steady_raise {A} e : steady (raise e : M world A).
Proof. intros w. simpl. lia. Qed.

Lemma steady_bind {A B} (m : M world A) (f : A → M world B) :
  steady m → (∀ a, steady (f a)) → steady (m ≫= f).
Proof.
  intros Hm Hf w. rewrite bind_eq. specialize (Hm w).
  destruct (m w) as [[a|e] w1]; simpl in *; [|done].
  specialize (Hf a w1). lia.
Qed.

Lemma steady_try_except {A} (m h : M world A) handled :
  steady m → steady h → steady (try_except m handled h).
Proof.
  intros Hm Hh w. unfold try_except. specialize (Hm w).
  destruct (m w) as [[a|e] w1]; simpl in *; [done|].
  destruct (handled e); simpl; [|done]. specialize (Hh w1). lia.
Qed.

Lemma steady_setattr name v force : steady (setattr name v force).
Proof. intros w. rewrite msetattr_eq. destruct Fillable_setattr; simpl; lia. Qed.

Lemma steady_callable name : steady (callable name).
Proof. intros w. unfold callable. destruct on_instance; simpl; lia. Qed.

Lemma steady_call_get_data : steady call_get_data.
Proof. intros w. simpl. lia. Qed.

Lemma steady_getattr_over g name :
  (∀ n, steady (g n)) → steady (getattr_over g name).
Proof.
  intros Hg w. unfold getattr_over.
  destruct Fillable_getattribute as [v|[]]; simpl; try lia. apply Hg.
Qed.

Lemma steady_method_call g name :
  (∀ n, steady (g n)) → steady (method_call g name).
Proof. intros Hg. apply steady_bind; [by apply Hg|]. intros _. apply steady_callable. Qed.

Lemma steady_fill_items g data :
  (∀ n, steady (g n)) → steady (fill_items g data).
Proof.
  intros Hg. induction data as [|[k v] data IH]; cbn [fill_items].
  - apply steady_ret.
  - apply steady_bind; [by apply steady_method_call|]. intros _.
    apply steady_bind; [apply steady_setattr|]. by intros _.
Qed.

Lemma steady_Fillable_getattr fuel : ∀ name, steady (Fillable_getattr fuel name).
Proof.
  induction fuel as [|fuel IH]; intros name; cbn [Fillable_getattr].
  { apply steady_raise. }
  assert (∀ n, steady (getattr_over (Fillable_getattr fuel) n)) as Hg.
  { intros n. by apply steady_getattr_over. }
  apply steady_bind; [apply Hg|]. intros dr.
  apply steady_bind.
  { destruct (truthy dr); [apply steady_ret|].
    apply steady_bind; [apply Hg|]. intros ?. apply steady_ret. }
  intros [|]; [apply steady_raise|].
  apply steady_bind.
  { apply steady_try_except.
    - apply steady_bind; [by apply steady_method_call|]. intros _.
      apply steady_bind; [apply steady_call_get_data|]. intros data.
      apply steady_bind; [apply steady_setattr|]. intros _. apply steady_ret.
    - apply steady_bind; [apply steady_setattr|]. intros _. apply steady_raise. }
  intros data.
  apply steady_bind; [by apply steady_method_call|]. intros _.
  apply steady_bind.
  { unfold fill_with_data. apply steady_bind; [apply steady_setattr|].
    intros _. by apply steady_fill_items. }
  intros _. apply Hg.
Qed.

(** ** Properties of the lazy fill *)

(** C2: when the fetch hook of a resource that has not been filled fails
    with NotFound, the access that triggered it fails with AttributeError,
    the instance then reads as confirmed absent ([_exists] is [False])
    and still unpopulated ([_data_retrieved] is [False]), and every further
    access to an unbound attribute fails with AttributeError without the
    hook being invoked again. *)
Theorem not_found_is_remembered d c name fuel e :
  unfilled d → unbound d name →
  get_data c = Raise e → is_NotFound e = true →
  ∃ w1,
    getattr (S fuel) name (World d c) = (Raise AttributeError, w1) ∧
    calls w1 = S c ∧
    Fillable_getattribute (self w1) "_exists" = Ok (VBool false) ∧
    Fillable_getattribute (self w1) "_data_retrieved" = Ok (VBool false) ∧
    ∀ names fuel',
      Forall (unbound (self w1)) names →
      getattrs (S fuel') names w1 = (map (λ _, Raise AttributeError) names, w1).
Proof.
  intros Hd Hname He Hnf. rewrite getattr_unfilled, He, Hnf by done.
  destruct Hd as (Hs & Hdr & Hex & _).
  set (d1 := <["_exists" := VBool false]> d).
  assert (d1 !! "_gcs_attrs" = Some (VDict [])) as Hs1.
  { unfold d1. by rewrite lookup_insert_ne. }
  assert (d1 !! "_exists" = Some (VBool false)) as Hex1.
  { unfold d1. apply lookup_insert_eq. }
  assert (d1 !! "_data_retrieved" = Some (VBool false)) as Hdr1.
  { unfold d1. by rewrite lookup_insert_ne. }
  eexists. split; [reflexivity|]. cbn [self calls]. split; [done|].
  split. { rewrite (getattribute_plain _ _ _ Hs1) by done. by apply object_lookup_dict. }
  split. { rewrite (getattribute_plain _ _ _ Hs1) by done. by apply object_lookup_dict. }
  intros names fuel' Hnames. apply getattrs_closed; [|done].
  right. exists []. by cbn [self].
Qed.

(** C6: when the fetch hook of a resource that has not been filled fails
    with an error other than NotFound, the access raises that very error,
    the instance is left exactly as it was (not populated, existence
    unknown), and a later access to an unbound attribute invokes the hook
    again. *)
Theorem other_errors_propagate d c name fuel e :
  unfilled d → unbound d name →
  get_data c = Raise e → is_NotFound e = false →
  getattr (S fuel) name (World d c) = (Raise e, World d (S c)) ∧
  ∀ name' fuel',
    unbound d name' →
    (S c < calls (getattr (S fuel') name' (World d (S c))).2)%nat.
Proof.
  intros Hd Hname He Hnf. split.
  { by rewrite getattr_unfilled, He, Hnf. }
  intros name' fuel' Hname'. rewrite getattr_unfilled by done.
  destruct (get_data (S c)) as [data|e'].
  - match goal with |- context [(?m ≫= ?f) ?w] =>
      assert (steady (m ≫= f)) as Hst end.
    { assert (∀ n, steady (getattr_over (Fillable_getattr fuel') n)) as Hg.
      { intros n. apply steady_getattr_over, steady_Fillable_getattr. }
      apply steady_bind; [by apply steady_fill_items|]. intros _. apply Hg. }
    match goal with |- context [(?m ≫= ?f) ?w] => specialize (Hst w) end.
    cbn [calls] in Hst. lia.
  - destruct (is_NotFound e'); simpl; lia.
Qed.


(** *** The merge *)

Lemma flatten_single_code v :
  match v with
  | VDict d => if Nat.eqb (length d) 1 then hd v (map snd d) else v
  | _ => v
  end = flatten_single v.
Proof. destruct v as [| | | | |[|[k x] [|? ?]]| | |]; reflexivity. Qed.

Lemma fill_items_bind_items g data :
  fill_items g data = bind_items g (map (λ kv, (kv.1, flatten_single kv.2)) data).
Proof.
  induction data as [|[k v] data IH]; [done|].
  cbn [fill_items bind_items map fst snd]. by rewrite flatten_single_code, IH.
Qed.

Lemma assoc_get_merged_other k data : ∀ s,
  k ∉ data.*1 → assoc_get k (merged s data) = assoc_get k s.
Proof.
  induction data as [|[k' v] data IH]; intros s Hk; [done|].
  rewrite fmap_cons, not_elem_of_cons in Hk. destruct Hk as [Hne Hk].
  unfold merged. cbn [foldl fst snd]. fold (merged (assoc_set k' (flatten_single v) s) data).
  rewrite IH by done. by apply assoc_get_set_ne.
Qed.

Lemma assoc_get_merged k v data : ∀ s,
  NoDup data.*1 → (k, v) ∈ data →
  assoc_get k (merged s data) = Some (flatten_single v).
Proof.
  induction data as [|[k' v'] data IH]; intros s Hnd Hin.
  { by apply elem_of_nil in Hin. }
  rewrite fmap_cons in Hnd. apply NoDup_cons in Hnd as [Hk' Hnd].
  unfold merged. cbn [foldl fst snd]. fold (merged (assoc_set k' (flatten_single v') s) data).
  apply elem_of_cons in Hin as [Heq|Hin].
  - injection Heq as -> ->. rewrite assoc_get_merged_other by done.
    apply assoc_get_set_eq.
  - by apply IH.
Qed.

(** With [__setattr__] and [_gcs_attrs] neither hidden on the instance nor
    defined by the representation, the loop stores every entry. *)
Lemma bind_items_clean g items : ∀ w s,
  self w !! "_gcs_attrs" = Some (VDict s) →
  self w !! "__setattr__" = None →
  assoc_get "__setattr__" s = None → assoc_get "_gcs_attrs" s = None →
  "__setattr__" ∉ items.*1 → "_gcs_attrs" ∉ items.*1 →
  bind_items (getattr_over g) items w =
    (Ok (), World (<["_gcs_attrs" := VDict (foldl (λ s kv, assoc_set kv.1 kv.2 s) s items)]> (self w))
                  (calls w)).
Proof.
  induction items as [|[k v] items IH]; intros w s Hs Hd Hsa Hga Hk1 Hk2.
  - cbn [bind_items foldl]. rewrite insert_id by done. by rewrite world_eta.
  - rewrite fmap_cons, not_elem_of_cons in Hk1, Hk2.
    destruct Hk1 as [Hne1 Hk1], Hk2 as [Hne2 Hk2]. cbn [fst] in Hne1, Hne2.
    cbn [bind_items]. rewrite bind_eq, (method_call_class _ _ _ s Hs setattr_is_method) by done.
    rewrite bind_eq, msetattr_eq, Fsetattr_forced, (setitem_gcs_attrs_own _ _ _ _ Hs Hga).
    rewrite (IH _ (assoc_set k v s)); cbn [self calls].
    + by rewrite insert_insert_eq.
    + apply lookup_insert_eq.
    + by rewrite lookup_insert_ne.
    + by rewrite assoc_get_set_ne.
    + by rewrite assoc_get_set_ne.
    + done.
    + done.
Qed.

Lemma foldl_assoc_set_map s data :
  foldl (λ s kv, assoc_set kv.1 kv.2 s) s (map (λ kv, (kv.1, flatten_single kv.2)) data)
  = merged s data.
Proof.
  revert s. induction data as [|[k v] data IH]; intros s; [done|].
  cbn [map foldl fst snd]. rewrite IH. reflexivity.
Qed.

Lemma map_fst_flatten (data : list (string * value)) :
  (map (λ kv, (kv.1, flatten_single kv.2)) data).*1 = data.*1.
Proof. induction data as [|[k v] data IH]; [done|]. cbn. by rewrite <- IH. Qed.

(** Marking the instance populated leaves [__setattr__] and [_gcs_attrs]
    as reachable as they were. *)
Lemma mark_populated d s :
  d !! "_gcs_attrs" = Some (VDict s) → assoc_get "_gcs_attrs" s = None →
  ∃ d' s',
    Fillable_setattr "_data_retrieved" (VBool true) false d = Ok d' ∧
    d' !! "_gcs_attrs" = Some (VDict s') ∧
    d' !! "__setattr__" = d !! "__setattr__" ∧
    assoc_get "__setattr__" s' = assoc_get "__setattr__" s ∧
    assoc_get "_gcs_attrs" s' = None.
Proof.
  intros Hs Hga. destruct (assoc_get "_data_retrieved" s) as [x|] eqn:Hdr.
  - exists (<["_gcs_attrs" := VDict (assoc_set "_data_retrieved" (VBool true) s)]> d),
           (assoc_set "_data_retrieved" (VBool true) s).
    split.
    { unfold Fillable_setattr, Fillable_setattr_over.
      rewrite (self_gcs_attrs_store _ _ Hs), Hga. simpl.
      unfold mbind, outcome_bind. simpl. rewrite Hdr.
      rewrite bool_decide_eq_true_2 by eauto.
      by apply setitem_gcs_attrs_own. }
    split; [apply lookup_insert_eq|]. split; [by rewrite lookup_insert_ne|].
    split; by rewrite assoc_get_set_ne.
  - exists (<["_data_retrieved" := VBool true]> d), s.
    split; [by apply (Fsetattr_dict _ s)|].
    split; [by rewrite lookup_insert_ne|]. split; [by rewrite lookup_insert_ne|]. done.
Qed.

(** C8: merging a fetched representation binds every key, through the
    instance's [__setattr__], to its value with a single-entry mapping
    replaced by that entry's value, and any other value as it is; where
    nothing stands in the way of the binding (neither the instance nor the
    representation defines [__setattr__] or [_gcs_attrs]) every key then
    reads as its flattened value. *)
Theorem merge_flattens_single_entry g data w :
  fill_with_data (getattr_over g) data w = merge_flattened (getattr_over g) data w ∧
  (∀ k x, flatten_single (VDict [(k, x)]) = x) ∧
  (∀ d, length d ≠ 1%nat → flatten_single (VDict d) = VDict d) ∧
  (∀ v, (∀ d, v ≠ VDict d) → flatten_single v = v) ∧
  ∀ s,
    self w !! "_gcs_attrs" = Some (VDict s) →
    self w !! "__setattr__" = None →
    assoc_get "__setattr__" s = None → assoc_get "_gcs_attrs" s = None →
    NoDup data.*1 → "__setattr__" ∉ data.*1 → "_gcs_attrs" ∉ data.*1 →
    ∃ w',
      fill_with_data (getattr_over g) data w = (Ok (), w') ∧
      ∀ k v, (k, v) ∈ data →
        Fillable_getattribute (self w') k = Ok (flatten_single v).
Proof.
  split. { unfold fill_with_data, merge_flattened. by rewrite fill_items_bind_items. }
  split. { done. }
  split. { intros [|[k x] [|? ?]] Hd; try reflexivity. by destruct Hd. }
  split. { intros v Hv. destruct v; try reflexivity. by destruct (Hv d). }
  intros s Hs Hd Hsa Hga Hnd Hk1 Hk2.
  unfold fill_with_data. rewrite fill_items_bind_items.
  destruct (mark_populated _ _ Hs Hga) as (d' & s' & Hset & Hs' & Hd' & Hsa' & Hga').
  rewrite bind_eq, msetattr_eq, Hset.
  rewrite (bind_items_clean _ _ _ s'); cbn [self calls];
    rewrite ?map_fst_flatten; try congruence.
  eexists. split; [reflexivity|]. intros k v Hin. cbn [self].
  rewrite (getattribute_store _ (merged s' data)).
  - by rewrite (assoc_get_merged k v).
  - rewrite foldl_assoc_set_map. apply lookup_insert_eq.
Qed.

(** *** Assignments before the fetch *)

Lemma elem_of_machinery n :
  n ∉ machinery →
  n ≠ "_gcs_attrs" ∧ n ≠ "_data_retrieved" ∧ n ≠ "_exists" ∧
  n ≠ "_get_data" ∧ n ≠ "_fill_with_data" ∧ n ≠ "__setattr__".
Proof.
  unfold machinery. rewrite !not_elem_of_cons.
  intros (? & ? & ? & ? & ? & ? & _). done.
Qed.

Lemma unfilled_insert d n v :
  unfilled d → n ∉ machinery → unfilled (<[n := v]> d).
Proof.
  intros (H1 & H2 & H3 & H4 & H5 & H6) Hn.
  apply elem_of_machinery in Hn as (N1 & N2 & N3 & N4 & N5 & N6).
  repeat split; by rewrite lookup_insert_ne.
Qed.

Lemma assign_backing d n v :
  d !! "_gcs_attrs" = Some (VDict []) →
  Fillable_setattr_over dict_setattr n v false d = Ok (<[n := v]> d).
Proof.
  intros Hs. unfold Fillable_setattr_over.
  by rewrite (self_gcs_attrs_store _ _ Hs).
Qed.



(** ** Properties of requests *)

Lemma lift_eq {S A} (r : outcome A) (s : S) : lift r s = (r, s).
Proof. reflexivity. Qed.


(** What [GCS._request] returns once its request is built and answered. *)
Lemma GCS_request_answered self op headers body parse ok url params net rq resp rest :
  build_request self op headers body url params = Ok rq →
  pending net = Ok resp :: rest →
  GCS_request self op headers body parse ok url params net =
    (if negb (bool_decide (status_code resp ∈ ok))
     then Raise (create_http_exception (status_code resp) (content resp))
     else if parse then
       match json resp with
       | Ok _ => Ok resp
       | Raise _ => Raise (Error ("GCS response is not JSON: " ++ content resp))
       end
     else Ok resp,
     Network rest (sent net ++ [rq])).
Proof.
  intros Hb Hp. unfold GCS_request. rewrite bind_eq, lift_eq, Hb.
  rewrite bind_eq. unfold requests_request at 1. rewrite Hp.
  destruct (bool_decide (status_code resp ∈ ok)); cbn [negb]; [|done].
  destruct parse; [|done]. by destruct (json resp).
Qed.

(** C5: once its request has been built and answered, [_request] raises
    the typed error of the status code exactly when that code is not among
    the accepted ones; with an accepted code and body validation asked
    for, a body that does not parse raises the plain [Error] that embeds
    the raw body; in every other case the response comes back as it is. *)
Theorem request_checks_status_and_body
    self op headers body parse ok url params net rq resp rest :
  build_request self op headers body url params = Ok rq →
  pending net = Ok resp :: rest →
  let out := (GCS_request self op headers body parse ok url params net).1 in
  (status_code resp ∉ ok →
     out = Raise (create_http_exception (status_code resp) (content resp))) ∧
  ((∃ kind code text, out = Raise (Http kind code text)) → status_code resp ∉ ok) ∧
  (status_code resp ∈ ok → parse = true → (∃ e, json resp = Raise e) →
     out = Raise (Error ("GCS response is not JSON: " ++ content resp))) ∧
  (status_code resp ∈ ok → (parse = false ∨ ∃ v, json resp = Ok v) →
     out = Ok resp).
Proof.
  intros Hb Hp out. subst out.
  rewrite (GCS_request_answered _ _ _ _ _ _ _ _ _ _ _ _ Hb Hp). cbn [fst].
  destruct (decide (status_code resp ∈ ok)) as [Hin|Hout].
  - rewrite bool_decide_eq_true_2 by done. cbn [negb].
    split; [done|]. split.
    { intros (kind & code & text & H). destruct parse; [destruct (json resp)|]; discriminate. }
    split.
    { intros _ -> [e He]. by rewrite He. }
    intros _ [->|[v Hv]]; [done|]. rewrite Hv. by destruct parse.
  - rewrite bool_decide_eq_false_2 by done. cbn [negb]. done.
Qed.

Lemma build_request_headers self op headers body url params rq :
  build_request self op headers body url params = Ok rq →
  ∃ id auth,
    GCS_getattribute self "_credentials" = Ok (VCredentials id auth) ∧
    req_headers rq !! "Authorization" = Some auth ∧
    ∀ k, k ≠ "Authorization" → req_headers rq !! k = default ∅ headers !! k.
Proof.
  unfold build_request. intros Hb.
  destruct (GCS_getattribute self "_credentials") as [cr|]; [|done].
  destruct cr; try done. simpl in Hb.
  match type of Hb with (?u ≫= _) = _ => destruct u as [u'|]; [|done] end.
  injection Hb as <-. eexists _, _. split; [done|]. cbn [req_headers].
  split; [apply lookup_insert_eq|].
  intros k Hk. rewrite lookup_insert_ne by done.
  destruct headers as [h|]; [|done]. cbn [default].
  case_bool_decide; by subst.
Qed.


Lemma create_http_exception_handled status text :
  is_NotFound (create_http_exception status text)
  || is_BadRequest (create_http_exception status text)
  = (status =? 400) || (status =? 404).
Proof.
  unfold create_http_exception.
  destruct (Z.eqb_spec status 400) as [->|H400]; [done|].
  destruct (Z.eqb_spec status 404) as [->|H404]; [done|].
  destruct ((status =? 401) || (status =? 403)); [done|].
  destruct (status =? 409); [done|]. destruct (status =? 412); [done|].
  by destruct ((500 <=? status) && (status <? 600)).
Qed.

Lemma elem_of_singleton_200 (z : Z) : z ∈ [200] ↔ z = 200.
Proof.
  rewrite elem_of_cons, elem_of_nil. split; [by intros [?|[]]|by left].
Qed.

(** C7: [exists] returns [False] when the probe, a HEAD request, fails
    with NotFound or BadRequest, [True] when the probe succeeds, and lets
    any other error of the probe through as it is; with the request built
    and answered this is: [True] on status 200, [False] on 400 and 404,
    and the typed error of any other status. *)
Theorem exists_follows_probe self net r net' :
  GCS_request self "HEAD" None VNone false [200] None ∅ net = (r, net') →
  (∀ resp, r = Ok resp → GCS_exists self net = (Ok true, net')) ∧
  (∀ e, r = Raise e → is_NotFound e || is_BadRequest e = true →
     GCS_exists self net = (Ok false, net')) ∧
  (∀ e, r = Raise e → is_NotFound e || is_BadRequest e = false →
     GCS_exists self net = (Raise e, net')) ∧
  (∀ rq resp rest,
     build_request self "HEAD" None VNone None ∅ = Ok rq →
     pending net = Ok resp :: rest →
     GCS_exists self net =
       (if status_code resp =? 200 then Ok true
        else if (status_code resp =? 400) || (status_code resp =? 404) then Ok false
        else Raise (create_http_exception (status_code resp) (content resp)),
        net')).
Proof.
  intros Hr. unfold GCS_exists, try_except. rewrite bind_eq, Hr.
  split. { by intros resp ->. }
  split. { by intros e -> ->. }
  split. { by intros e -> ->. }
  intros rq resp rest Hb Hp.
  rewrite (GCS_request_answered _ _ _ _ _ _ _ _ _ _ _ _ Hb Hp) in Hr.
  injection Hr as <- <-.
  destruct (Z.eqb_spec (status_code resp) 200) as [->|Hne].
  { by rewrite bool_decide_eq_true_2 by by apply elem_of_singleton_200. }
  rewrite bool_decide_eq_false_2 by by rewrite elem_of_singleton_200.
  cbn [negb]. rewrite create_http_exception_handled.
  by destruct ((status_code resp =? 400) || (status_code resp =? 404)).
Qed.

(** ** Properties of listings *)








(** The loop never runs out of fuel: each turn takes an answer from the
    transport, and with none left the request raises. *)
Lemma GCS_request_takes self op headers body parse ok url params net r net' :
  GCS_request self op headers body parse ok url params net = (Ok r, net') →
  (length (pending net') < length (pending net))%nat.
Proof.
  unfold GCS_request. rewrite bind_eq, lift_eq.
  destruct (build_request self op headers body url params) as [rq|]; [|done].
  rewrite bind_eq. unfold requests_request.
  destruct (pending net) as [|[resp|e] rest]; [done| |done].
  intros Hr. cbn [length].
  assert (net' = Network rest (sent net ++ [rq])) as ->.
  { destruct (negb _); [done|].
    destruct parse; [destruct (json resp)|]; by injection Hr. }
  cbn. lia.
Qed.

Lemma list_loop_fuel fuel : ∀ self kwargs result net,
  (length (pending net) < fuel)%nat →
  list_loop (S fuel) self kwargs result net = list_loop fuel self kwargs result net.
Proof.
  induction fuel as [|fuel IH]; intros self kwargs result net Hfuel; [lia|].
  cbn [list_loop]. rewrite !bind_eq.
  destruct (GCS_request self "GET" None VNone true [200] (Some child_url) kwargs net)
    as [[r|e] net'] eqn:Hr; [|done].
  apply GCS_request_takes in Hr.
  rewrite !bind_eq, !lift_eq. destruct (json r) as [env|]; [|done].
  rewrite !bind_eq, !lift_eq. destruct (py_get env "items" (VList [])) as [items|]; [|done].
  rewrite !bind_eq, !lift_eq. destruct (py_iter items) as [bs|]; [|done].
  rewrite !bind_eq, !lift_eq. destruct (mapM _ bs) as [children|]; [|done].
  rewrite !bind_eq, !lift_eq. destruct (py_get env "nextPageToken" VNone) as [token|]; [|done].
  destruct (negb (truthy token)); [done|].
  apply IH. lia.
Qed.





(** ** Construction and the retry configuration *)

Lemma py_eq_not c : py_eq c (VBool (negb (truthy c))) = false.
Proof.
  destruct c as [|b|z| | | | | |]; try reflexivity.
  - by destruct b.
  - unfold truthy. destruct (Z.eqb_spec z 0) as [->|Hz]; [done|].
    cbn. lia.
Qed.

Lemma truthy_or_default retry_params :
  (if truthy retry_params then retry_params else get_default) ≠ VNone.
Proof. destruct (truthy retry_params) eqn:E; [|done]. by destruct retry_params. Qed.

Lemma object_lookup_total d name :
  (∃ v, object_lookup d name = Ok v) ∨ object_lookup d name = Raise AttributeError.
Proof. unfold object_lookup. destruct (d !! name); [eauto|]. destruct class_attr; eauto. Qed.

Lemma GCS_credentials_setter_ok credentials d :
  ∃ d1, GCS_setattr "credentials" credentials d = Ok d1.
Proof.
  unfold GCS_setattr, object_setattr. cbn [String.eqb Ascii.eqb Bool.eqb].
  unfold credentials_setter, GCS_getattribute, object_getattribute. cbn.
  destruct (object_lookup_total d "_credentials") as [[cur ->]| ->]; cbn.
  - destruct (py_eq credentials cur); [eauto|].
    unfold dict_setattr at 1. cbn.
    destruct (object_lookup_total (<["_credentials" := credentials]> d) "api_version")
      as [[ver ->]|Hm]; cbn.
    + rewrite (object_lookup_dict _ "_credentials" credentials) by apply lookup_insert_eq.
      cbn. eauto.
    + unfold object_lookup in Hm. destruct (_ !! "api_version"); [done|]. done.
  - destruct (py_eq credentials _); [eauto|].
    unfold dict_setattr at 1. cbn.
    destruct (object_lookup_total (<["_credentials" := credentials]> d) "api_version")
      as [[ver ->]|Hm]; cbn.
    + rewrite (object_lookup_dict _ "_credentials" credentials) by apply lookup_insert_eq.
      cbn. eauto.
    + unfold object_lookup in Hm. destruct (_ !! "api_version"); [done|]. done.
Qed.

(** [GCS.__init__] on an instance of [GCS] succeeds. *)
Lemma GCS_init_retry_params credentials retry_params :
  ∃ d,
    GCS_init GCS_setattr credentials retry_params ∅ = Ok d ∧
    GCS_getattribute d "retry_params"
      = Ok (if truthy retry_params then retry_params else get_default).
Proof.
  unfold GCS_init.
  destruct (GCS_credentials_setter_ok credentials ∅) as [d1 Hd1].
  rewrite Hd1. cbn. eexists. split; [reflexivity|].
  apply object_lookup_dict, lookup_insert_eq.
Qed.

Lemma outcome_bind_ok {A B} (a : A) (f : A → outcome B) : (Ok a ≫= f) = f a.
Proof. reflexivity. Qed.

Lemma credentials_setter_fresh d credentials :
  d !! "_gcs_attrs" = Some (VDict []) →
  d !! "_credentials" = Some (VBool (negb (truthy credentials))) →
  d !! "api_version" = None →
  Fillable_setattr "credentials" credentials false d =
    Ok (<["_service" := discovery_build (VStr "v1") credentials]>
          (<["_credentials" := credentials]> d)).
Proof.
  intros Hs Hc Hv. unfold Fillable_setattr, Fillable_setattr_over at 1.
  rewrite (self_gcs_attrs_store _ _ Hs). cbn [assoc_get from_option].
  rewrite outcome_bind_ok. cbn [py_contains assoc_get].
  rewrite bool_decide_eq_false_2 by (intros [? ?]; discriminate).
  rewrite outcome_bind_ok.
  unfold object_setattr. cbn [String.eqb Ascii.eqb Bool.eqb].
  unfold credentials_setter.
  rewrite (getattribute_plain _ _ _ Hs) by done.
  rewrite (object_lookup_dict _ _ _ Hc), outcome_bind_ok, py_eq_not.
  rewrite assign_backing, outcome_bind_ok by done.
  set (d2 := <["_credentials" := credentials]> d).
  assert (d2 !! "_gcs_attrs" = Some (VDict [])) as Hs2.
  { unfold d2. by rewrite lookup_insert_ne. }
  rewrite (getattribute_plain d2 [] "api_version" Hs2) by done.
  assert (object_lookup d2 "api_version" = Ok (VStr "v1")) as ->.
  { unfold object_lookup, d2. by rewrite lookup_insert_ne, Hv. }
  rewrite outcome_bind_ok, (getattribute_plain d2 [] "_credentials" Hs2) by done.
  rewrite (object_lookup_dict d2 "_credentials" credentials) by apply lookup_insert_eq.
  rewrite outcome_bind_ok. by rewrite assign_backing.
Qed.

Lemma property_read d v backing name :
  d !! "_gcs_attrs" = Some (VDict []) →
  property_backing name = Some backing → d !! backing = Some v →
  Fillable_getattribute d name = Ok v.
Proof.
  intros Hs Hp Hb. rewrite (getattribute_store _ _ _ Hs). cbn [assoc_get].
  unfold object_getattribute. rewrite Hp.
  unfold Fillable_getattribute_over. rewrite (object_lookup_dict _ _ _ Hs).
  rewrite outcome_bind_ok. cbn [py_contains assoc_get].
  rewrite bool_decide_eq_false_2 by (intros [? ?]; discriminate).
  rewrite outcome_bind_ok. by apply object_lookup_dict.
Qed.

(** [Fillable.__init__] succeeds and leaves the instance unfilled. *)
Lemma Fillable_init_unfilled credentials retry_params :
  ∃ d,
    Fillable_init credentials retry_params = Ok d ∧ unfilled d ∧
    Fillable_getattribute d "retry_params"
      = Ok (if truthy retry_params then retry_params else get_default) ∧
    Fillable_getattribute d "credentials" = Ok credentials.
Proof.
  unfold Fillable_init, dict_setattr. rewrite outcome_bind_ok.
  set (d0 := <["_gcs_attrs" := VDict []]> (∅ : pydict)).
  assert (d0 !! "_gcs_attrs" = Some (VDict [])) as Hs0 by apply lookup_insert_eq.
  rewrite (Fsetattr_dict _ _ _ _ Hs0), outcome_bind_ok by done.
  set (d1 := <["_credentials" := _]> d0).
  assert (d1 !! "_gcs_attrs" = Some (VDict [])) as Hs1.
  { unfold d1. by rewrite lookup_insert_ne. }
  unfold GCS_init.
  rewrite (credentials_setter_fresh d1); [|done|apply lookup_insert_eq|].
  2: { unfold d1, d0. by rewrite !lookup_insert_ne, lookup_empty. }
  rewrite outcome_bind_ok.
  set (d3 := <["_service" := _]> _).
  assert (d3 !! "_gcs_attrs" = Some (VDict [])) as Hs3.
  { unfold d3. by rewrite !lookup_insert_ne. }
  rewrite (Fsetattr_dict _ _ _ _ Hs3), outcome_bind_ok by done.
  set (d4 := <["_retry_params" := _]> d3).
  assert (d4 !! "_gcs_attrs" = Some (VDict [])) as Hs4.
  { unfold d4. by rewrite !lookup_insert_ne. }
  rewrite (Fsetattr_dict _ _ _ _ Hs4), outcome_bind_ok by done.
  set (d5 := <["_data_retrieved" := _]> d4).
  assert (d5 !! "_gcs_attrs" = Some (VDict [])) as Hs5.
  { unfold d5. by rewrite !lookup_insert_ne. }
  rewrite (Fsetattr_dict _ _ _ _ Hs5) by done.
  set (d6 := <["_exists" := VNone]> d5).
  assert (d6 !! "_gcs_attrs" = Some (VDict [])) as Hs6.
  { unfold d6. by rewrite !lookup_insert_ne. }
  exists d6. split; [done|]. split.
  { unfold unfilled. split; [done|].
    unfold d6, d5, d4, d3, d1, d0.
    repeat split;
      repeat first [ rewrite lookup_insert_eq; reflexivity
                   | rewrite lookup_insert_ne by done
                   | by rewrite lookup_empty ]. }
  split.
  - apply (property_read _ _ "_retry_params"); [done|done|].
    unfold d6, d5. rewrite !lookup_insert_ne by done. apply lookup_insert_eq.
  - apply (property_read _ _ "_credentials"); [done|done|].
    unfold d6, d5, d4, d3. rewrite !lookup_insert_ne by done. apply lookup_insert_eq.
Qed.

(** *** Resources constructed from raw data *)

(** [obj_from_data] on a representation that defines none of
    [__setattr__], [_gcs_attrs] and [_data_retrieved] gives a populated
    instance whose existence is unknown, on which every key reads as its
    flattened value, without a fetch. *)
Lemma obj_from_data_populated fuel data credentials retry_params c :
  NoDup data.*1 →
  "__setattr__" ∉ data.*1 → "_gcs_attrs" ∉ data.*1 →
  "_data_retrieved" ∉ data.*1 →
  ∃ w,
    obj_from_data fuel data credentials retry_params c = (Ok (), w) ∧
    calls w = c ∧ settled (self w) ∧
    (∀ k v, (k, v) ∈ data → Fillable_getattribute (self w) k = Ok (flatten_single v)) ∧
    ("_exists" ∉ data.*1 → Fillable_getattribute (self w) "_exists" = Ok VNone).
Proof.
  intros Hnd Hk1 Hk2 Hk3. unfold obj_from_data.
  destruct (Fillable_init_unfilled credentials retry_params)
    as (d & -> & (Hs & Hdr & Hex & Hgd & Hfd & Hsa) & _).
  rewrite bind_eq. unfold getattr at 1.
  rewrite (method_call_class _ _ (World d c) [] Hs fill_with_data_is_method) by done.
  unfold fill_with_data. rewrite fill_items_bind_items.
  rewrite bind_eq, msetattr_eq, (Fsetattr_dict _ _ _ _ Hs) by done.
  unfold getattr.
  rewrite (bind_items_clean _ _ _ []); cbn [self calls];
    rewrite ?map_fst_flatten; try done; try by rewrite lookup_insert_ne.
  rewrite foldl_assoc_set_map.
  eexists. split; [reflexivity|]. cbn [self calls]. split; [done|].
  assert ((<["_gcs_attrs" := VDict (merged [] data)]>
            (<["_data_retrieved" := VBool true]> d) : pydict) !! "_gcs_attrs"
          = Some (VDict (merged [] data))) as Hs' by apply lookup_insert_eq.
  split.
  { exists (merged [] data). split; [done|]. split.
    - by rewrite assoc_get_merged_other.
    - rewrite lookup_insert_ne by done. apply lookup_insert_eq. }
  split.
  - intros k v Hin. rewrite (getattribute_store _ _ _ Hs').
    by rewrite (assoc_get_merged k v).
  - intros Hk4. rewrite (getattribute_plain _ _ _ Hs'); [|by rewrite assoc_get_merged_other|done].
    apply object_lookup_dict. by rewrite !lookup_insert_ne.
Qed.

(** C10: constructing a resource without retry configuration, or with
    [None], installs the process-wide default; no construction leaves the
    configuration [None]; the [retry_params] setter sets it to [None] when
    given [None], and raises AssertionError, changing nothing, on a value
    that is neither [None] nor a [RetryParams] instance. *)
Theorem retry_params_default_and_setter :
  (∀ credentials, ∃ d,
     GCS_init GCS_setattr credentials VNone ∅ = Ok d ∧
     GCS_getattribute d "retry_params" = Ok get_default) ∧
  (∀ credentials, ∃ d,
     Fillable_init credentials VNone = Ok d ∧
     Fillable_getattribute d "retry_params" = Ok get_default) ∧
  (∀ credentials retry_params d,
     GCS_init GCS_setattr credentials retry_params ∅ = Ok d →
     GCS_getattribute d "retry_params" ≠ Ok VNone) ∧
  (∀ credentials retry_params d,
     Fillable_init credentials retry_params = Ok d →
     Fillable_getattribute d "retry_params" ≠ Ok VNone) ∧
  (∀ d, ∃ d',
     GCS_setattr "retry_params" VNone d = Ok d' ∧
     GCS_getattribute d' "retry_params" = Ok VNone) ∧
  (∀ d id, ∃ d',
     GCS_setattr "retry_params" (VRetryParams id) d = Ok d' ∧
     GCS_getattribute d' "retry_params" = Ok (VRetryParams id)) ∧
  (∀ d v,
     v ≠ VNone → (∀ id, v ≠ VRetryParams id) →
     GCS_setattr "retry_params" v d = Raise AssertionError).
Proof.
  assert (∀ d v, GCS_getattribute (<["_retry_params" := v]> d) "retry_params" = Ok v) as Hread.
  { intros d v. unfold GCS_getattribute, object_getattribute. cbn.
    apply object_lookup_dict, lookup_insert_eq. }
  split. { intros c. apply (GCS_init_retry_params c VNone). }
  split.
  { intros c. destruct (Fillable_init_unfilled c VNone) as (d & Hd & _ & Hr & _). eauto. }
  split.
  { intros c rp d Hd Hnone.
    destruct (GCS_init_retry_params c rp) as (d' & Hd' & Hr).
    rewrite Hd in Hd'. injection Hd' as <-. rewrite Hr in Hnone.
    injection Hnone. apply truthy_or_default. }
  split.
  { intros c rp d Hd Hnone.
    - destruct (Fillable_init_unfilled c rp) as (d' & Hd' & (Hs & _) & Hr & _).
      rewrite Hd in Hd'. injection Hd' as <-.
      rewrite Hr in Hnone. injection Hnone. apply truthy_or_default. }
  split. { intros d. eexists. split; [reflexivity|]. apply Hread. }
  split. { intros d id. eexists. split; [reflexivity|]. apply Hread. }
  intros d v Hv1 Hv2. unfold GCS_setattr, object_setattr. cbn.
  unfold retry_params_setter. destruct v; try done. by destruct (Hv2 id).
Qed.

(** * Further properties of the code *)

(** ** Attribute access on a lazy resource *)

Lemma property_backing_none name :
  property_backing name = None ↔ name ≠ "retry_params" ∧ name ≠ "credentials".
Proof.
  unfold property_backing.
  destruct (String.eqb_spec name "retry_params") as [->|H1].
  { split; [done|]. by intros [[] _]. }
  destruct (String.eqb_spec name "credentials") as [->|H2].
  { split; [done|]. by intros [_ []]. }
  done.
Qed.

Lemma property_backing_some name backing :
  property_backing name = Some backing →
  backing = "_retry_params" ∨ backing = "_credentials".
Proof.
  unfold property_backing.
  destruct (String.eqb name "retry_params"); [intros [= <-]; by left|].
  destruct (String.eqb name "credentials"); [intros [= <-]; by right|done].
Qed.

Lemma object_lookup_insert_ne d k v name :
  k ≠ name → object_lookup (<[k := v]> d) name = object_lookup d name.
Proof. intros Hne. unfold object_lookup. by rewrite lookup_insert_ne. Qed.

Lemma getattribute_over_store d s name :
  d !! "_gcs_attrs" = Some (VDict s) →
  Fillable_getattribute_over object_lookup d name =
    match assoc_get name s with
    | Some v => Ok v
    | None => object_lookup d name
    end.
Proof.
  intros Hs. unfold Fillable_getattribute_over.
  rewrite (object_lookup_dict _ _ _ Hs), outcome_bind_ok.
  unfold py_contains, py_getitem. rewrite outcome_bind_ok.
  destruct (assoc_get name s) eqn:E.
  - rewrite bool_decide_eq_true_2 by eauto. reflexivity.
  - rewrite bool_decide_eq_false_2 by (intros [? ?]; discriminate). reflexivity.
Qed.

(** A read consults the fetched attributes and the instance dictionary
    only under the name read and, for a property, under the name of the
    attribute behind it. *)
Lemma getattribute_ext d s d' s' name :
  d !! "_gcs_attrs" = Some (VDict s) → d' !! "_gcs_attrs" = Some (VDict s') →
  assoc_get name s' = assoc_get name s →
  (∀ backing, property_backing name = Some backing →
     assoc_get backing s' = assoc_get backing s ∧ d' !! backing = d !! backing) →
  (property_backing name = None → name ≠ "_gcs_attrs" → d' !! name = d !! name) →
  name ≠ "_gcs_attrs" →
  Fillable_getattribute d' name = Fillable_getattribute d name.
Proof.
  intros Hs Hs' Hn Hb Hp Hne.
  rewrite (getattribute_store _ _ _ Hs), (getattribute_store _ _ _ Hs'), Hn.
  destruct (assoc_get name s); [done|].
  unfold object_getattribute. destruct (property_backing name) as [backing|] eqn:E.
  - destruct (Hb backing eq_refl) as [Hb1 Hb2].
    rewrite (getattribute_over_store _ _ _ Hs), (getattribute_over_store _ _ _ Hs'), Hb1.
    unfold object_lookup. by rewrite Hb2.
  - unfold object_lookup. by rewrite Hp.
Qed.

(** An assignment to a name among the fetched attributes rewrites the
    fetched value, whatever the name; the instance dictionary stays as it
    is. *)
Lemma Fsetattr_store d s name x v :
  d !! "_gcs_attrs" = Some (VDict s) → assoc_get "_gcs_attrs" s = None →
  assoc_get name s = Some x →
  Fillable_setattr name v false d =
    Ok (<["_gcs_attrs" := VDict (assoc_set name v s)]> d).
Proof.
  intros Hs Hga Hn. unfold Fillable_setattr, Fillable_setattr_over at 1.
  rewrite (self_gcs_attrs_store _ _ Hs), Hga. cbn [from_option id].
  rewrite outcome_bind_ok. cbn [py_contains]. rewrite Hn.
  rewrite bool_decide_eq_true_2 by eauto. rewrite outcome_bind_ok.
  by apply setitem_gcs_attrs_own.
Qed.

(** What an assignment to a name that is no property does, and what it
    leaves alone. *)
Lemma Fsetattr_roundtrip d s name v :
  d !! "_gcs_attrs" = Some (VDict s) → assoc_get "_gcs_attrs" s = None →
  name ≠ "_gcs_attrs" → property_backing name = None →
  ∃ d' s',
    Fillable_setattr name v false d = Ok d' ∧
    d' !! "_gcs_attrs" = Some (VDict s') ∧
    assoc_get "_gcs_attrs" s' = None ∧
    Fillable_getattribute d' name = Ok v ∧
    (is_Some (assoc_get name s) → ∀ k, k ≠ "_gcs_attrs" → d' !! k = d !! k) ∧
    (assoc_get name s = None → d' = <[name := v]> d) ∧
    (∀ k, k ≠ name → assoc_get k s' = assoc_get k s) ∧
    (∀ k, k ≠ name → k ≠ "_gcs_attrs" → d' !! k = d !! k) ∧
    ∀ other, other ≠ name → other ≠ "_gcs_attrs" →
      property_backing other ≠ Some name →
      Fillable_getattribute d' other = Fillable_getattribute d other.
Proof.
  intros Hs Hga Hne Hp.
  assert (∀ d' s',
    d' !! "_gcs_attrs" = Some (VDict s') →
    (∀ k, k ≠ name → assoc_get k s' = assoc_get k s) →
    (∀ k, k ≠ name → k ≠ "_gcs_attrs" → d' !! k = d !! k) →
    ∀ other, other ≠ name → other ≠ "_gcs_attrs" →
      property_backing other ≠ Some name →
      Fillable_getattribute d' other = Fillable_getattribute d other) as Hframe.
  { intros d' s' Hs' Hst Hdi other Ho1 Ho2 Ho3.
    apply (getattribute_ext d s d' s'); try done.
    - by apply Hst.
    - intros backing Hb. assert (backing ≠ name) by congruence.
      split; [by apply Hst|].
      apply Hdi; [done|]. by destruct (property_backing_some _ _ Hb) as [-> | ->].
    - intros _ _. by apply Hdi. }
  destruct (assoc_get name s) as [x|] eqn:Hn.
  - exists (<["_gcs_attrs" := VDict (assoc_set name v s)]> d), (assoc_set name v s).
    assert ((<["_gcs_attrs" := VDict (assoc_set name v s)]> d : pydict) !! "_gcs_attrs"
            = Some (VDict (assoc_set name v s))) as Hs' by apply lookup_insert_eq.
    assert (∀ k, k ≠ name → assoc_get k (assoc_set name v s) = assoc_get k s) as Hst.
    { intros k Hk. apply assoc_get_set_ne. congruence. }
    assert (∀ k, k ≠ "_gcs_attrs" →
              (<["_gcs_attrs" := VDict (assoc_set name v s)]> d : pydict) !! k = d !! k) as Hdi.
    { intros k Hk. by rewrite lookup_insert_ne. }
    split; [by apply (Fsetattr_store _ _ _ x)|]. split; [done|].
    split; [by rewrite Hst|]. split.
    { by rewrite (getattribute_store _ _ _ Hs'), assoc_get_set_eq. }
    split; [done|]. split; [done|]. split; [done|]. split; [by intros; apply Hdi|].
    apply (Hframe _ _ Hs' Hst). by intros; apply Hdi.
  - apply property_backing_none in Hp as Hp'. destruct Hp' as [Hp1 Hp2].
    exists (<[name := v]> d), s.
    assert ((<[name := v]> d : pydict) !! "_gcs_attrs" = Some (VDict s)) as Hs'.
    { by rewrite lookup_insert_ne. }
    split; [by apply (Fsetattr_dict _ s)|]. split; [done|]. split; [done|]. split.
    { rewrite (getattribute_plain _ _ _ Hs') by done.
      apply object_lookup_dict, lookup_insert_eq. }
    split; [by intros [? ?]|]. split; [done|]. split; [done|].
    assert (∀ k, k ≠ name → k ≠ "_gcs_attrs" → (<[name := v]> d : pydict) !! k = d !! k) as Hdi.
    { intros k Hk _. by rewrite lookup_insert_ne. }
    split; [done|]. by apply (Hframe _ _ Hs').
Qed.


(** ** The first read *)

(** The instance after a successful fetch of [data]. *)
Lemma getattr_fetched d c name fuel data :
  unfilled d → unbound d name → get_data c = Ok data →
  "__setattr__" ∉ data.*1 → "_gcs_attrs" ∉ data.*1 →
  getattr (S fuel) name (World d c) =
    getattr_over (Fillable_getattr fuel) name
      (World (<["_gcs_attrs" := VDict (merged [] data)]>
                (<["_data_retrieved" := VBool true]> (<["_exists" := VBool true]> d)))
             (S c)).
Proof.
  intros Hd Hname Hdata Hk1 Hk2. rewrite getattr_unfilled, Hdata by done.
  destruct Hd as (Hs & Hdr & Hex & Hgd & Hfd & Hsa).
  set (d2 := <["_data_retrieved" := VBool true]> (<["_exists" := VBool true]> d)).
  assert (d2 !! "_gcs_attrs" = Some (VDict [])) as Hs2.
  { unfold d2. by rewrite !lookup_insert_ne. }
  rewrite bind_eq, fill_items_bind_items.
  rewrite (bind_items_clean _ _ _ []); cbn [self calls];
    rewrite ?map_fst_flatten; try done;
    [|by (unfold d2; rewrite !lookup_insert_ne)].
  by rewrite foldl_assoc_set_map.
Qed.

Lemma fetched_settled d data :
  "_data_retrieved" ∉ data.*1 →
  settled (<["_gcs_attrs" := VDict (merged [] data)]>
             (<["_data_retrieved" := VBool true]> d)).
Proof.
  intros Hk. exists (merged [] data). split; [apply lookup_insert_eq|]. split.
  - by rewrite assoc_get_merged_other.
  - rewrite lookup_insert_ne by done. apply lookup_insert_eq.
Qed.



(** X3: a successful fetch writes the instance dictionary under
    [_exists], [_data_retrieved] and [_gcs_attrs] only: whatever was
    assigned on the instance before is still in its dictionary, also
    under the names whose reads now return the fetched value. *)
Theorem fetch_keeps_instance_dictionary d c name fuel data :
  unfilled d → unbound d name → get_data c = Ok data →
  "__setattr__" ∉ data.*1 → "_gcs_attrs" ∉ data.*1 → "_data_retrieved" ∉ data.*1 →
  let w1 := (getattr (S (S fuel)) name (World d c)).2 in
  self w1 !! "_gcs_attrs" = Some (VDict (merged [] data)) ∧
  ∀ k, k ≠ "_gcs_attrs" → k ≠ "_data_retrieved" → k ≠ "_exists" →
    self w1 !! k = d !! k.
Proof.
  intros Hd Hname Hdata Hk1 Hk2 Hk3 w1. subst w1.
  rewrite (getattr_fetched _ _ _ _ data) by done.
  set (d3 := <["_gcs_attrs" := VDict (merged [] data)]>
               (<["_data_retrieved" := VBool true]> (<["_exists" := VBool true]> d))).
  assert (d3 !! "_gcs_attrs" = Some (VDict (merged [] data))) as Hs3 by apply lookup_insert_eq.
  assert (settled d3) as Hset by by apply fetched_settled.
  assert ((getattr_over (Fillable_getattr (S fuel)) name (World d3 (S c))).2
          = World d3 (S c)) as ->.
  { destruct (getattribute_ok_or_missing d3 _ name Hs3) as [[v Hv]|Hm].
    - by rewrite (getattr_over_hit _ _ (World d3 (S c)) _ Hv).
    - by rewrite getattr_over_miss, Fgetattr_settled. }
  cbn [self]. split; [done|].
  intros k N1 N2 N3. unfold d3. by rewrite !lookup_insert_ne.
Qed.

(** ** The merge and the attributes it does not define *)


(** ** The properties of a lazy resource *)

Lemma assign_backing_store d s n v :
  d !! "_gcs_attrs" = Some (VDict s) → assoc_get "_gcs_attrs" s = None →
  Fillable_setattr_over dict_setattr n v false d =
    Ok (if bool_decide (is_Some (assoc_get n s))
        then <["_gcs_attrs" := VDict (assoc_set n v s)]> d
        else <[n := v]> d).
Proof.
  intros Hs Hga. unfold Fillable_setattr_over.
  rewrite (self_gcs_attrs_store _ _ Hs), Hga. cbn [from_option id].
  rewrite outcome_bind_ok. cbn [py_contains]. rewrite outcome_bind_ok.
  destruct (bool_decide (is_Some (assoc_get n s))); [|done].
  by apply setitem_gcs_attrs_own.
Qed.

(** X5: on a lazy resource, the [retry_params] setter takes [None] or a
    [RetryParams] instance, which the property then returns, and refuses
    anything else with AssertionError; but once the fetched attributes
    hold the name [retry_params], an assignment goes to the fetched
    attributes, past the setter and its check, and any value is taken. *)
Theorem lazy_retry_params_setter d s v :
  d !! "_gcs_attrs" = Some (VDict s) → assoc_get "_gcs_attrs" s = None →
  (assoc_get "retry_params" s = None → is_retry_config v = true →
     ∃ d', Fillable_setattr "retry_params" v false d = Ok d' ∧
           Fillable_getattribute d' "retry_params" = Ok v) ∧
  (assoc_get "retry_params" s = None → is_retry_config v = false →
     Fillable_setattr "retry_params" v false d = Raise AssertionError) ∧
  (is_Some (assoc_get "retry_params" s) →
     ∃ d', Fillable_setattr "retry_params" v false d = Ok d' ∧
           Fillable_getattribute d' "retry_params" = Ok v).
Proof.
  intros Hs Hga.
  assert (assoc_get "retry_params" s = None →
          Fillable_setattr "retry_params" v false d =
            if is_retry_config v
            then Fillable_setattr_over dict_setattr "_retry_params" v false d
            else Raise AssertionError) as Hsetter.
  { intros Hn. unfold Fillable_setattr, Fillable_setattr_over at 1.
    rewrite (self_gcs_attrs_store _ _ Hs), Hga. cbn [from_option id].
    rewrite outcome_bind_ok. cbn [py_contains]. rewrite Hn.
    rewrite bool_decide_eq_false_2 by (intros [? ?]; discriminate).
    by rewrite outcome_bind_ok. }
  split; [|split].
  - intros Hn Hv. rewrite Hsetter, Hv, (assign_backing_store _ s) by done.
    eexists. split; [reflexivity|].
    case_bool_decide as Hb.
    + set (s' := assoc_set "_retry_params" v s).
      rewrite (getattribute_store _ s') by apply lookup_insert_eq.
      unfold s'. rewrite assoc_get_set_ne, Hn by done.
      unfold object_getattribute. cbn [property_backing String.eqb Ascii.eqb Bool.eqb].
      rewrite (getattribute_over_store _ s') by apply lookup_insert_eq.
      unfold s'. by rewrite assoc_get_set_eq.
    + assert (assoc_get "_retry_params" s = None) as Hb'.
      { destruct (assoc_get "_retry_params" s); [|done]. destruct Hb. eauto. }
      assert ((<["_retry_params" := v]> d : pydict) !! "_gcs_attrs" = Some (VDict s)) as Hs'.
      { by rewrite lookup_insert_ne. }
      rewrite (getattribute_store _ _ _ Hs'), Hn.
      unfold object_getattribute. cbn [property_backing String.eqb Ascii.eqb Bool.eqb].
      rewrite (getattribute_over_store _ _ _ Hs'), Hb'.
      apply object_lookup_dict, lookup_insert_eq.
  - intros Hn Hv. by rewrite Hsetter, Hv.
  - intros [x Hx]. rewrite (Fsetattr_store _ _ _ x) by done.
    eexists. split; [reflexivity|].
    rewrite (getattribute_store _ (assoc_set "retry_params" v s)) by apply lookup_insert_eq.
    by rewrite assoc_get_set_eq.
Qed.

(** ** Construction *)

(** The instance [Fillable.__init__] builds. *)
Lemma Fillable_init_dict credentials retry_params :
  ∃ d,
    Fillable_init credentials retry_params = Ok d ∧ unfilled d ∧
    d !! "_credentials" = Some credentials ∧
    d !! "_service" = Some (discovery_build (VStr "v1") credentials) ∧
    d !! "_retry_params"
      = Some (if truthy retry_params then retry_params else get_default) ∧
    ∀ name, name ∉ ["_gcs_attrs"; "_credentials"; "_service"; "_retry_params";
                    "_data_retrieved"; "_exists"] → d !! name = None.
Proof.
  unfold Fillable_init, dict_setattr. rewrite outcome_bind_ok.
  set (d0 := <["_gcs_attrs" := VDict []]> (∅ : pydict)).
  assert (d0 !! "_gcs_attrs" = Some (VDict [])) as Hs0 by apply lookup_insert_eq.
  rewrite (Fsetattr_dict _ _ _ _ Hs0), outcome_bind_ok by done.
  set (d1 := <["_credentials" := _]> d0).
  assert (d1 !! "_gcs_attrs" = Some (VDict [])) as Hs1.
  { unfold d1. by rewrite lookup_insert_ne. }
  unfold GCS_init.
  rewrite (credentials_setter_fresh d1); [|done|apply lookup_insert_eq|].
  2: { unfold d1, d0. by rewrite !lookup_insert_ne, lookup_empty. }
  rewrite outcome_bind_ok.
  set (d3 := <["_service" := _]> _).
  assert (d3 !! "_gcs_attrs" = Some (VDict [])) as Hs3.
  { unfold d3. by rewrite !lookup_insert_ne. }
  rewrite (Fsetattr_dict _ _ _ _ Hs3), outcome_bind_ok by done.
  set (d4 := <["_retry_params" := _]> d3).
  assert (d4 !! "_gcs_attrs" = Some (VDict [])) as Hs4.
  { unfold d4. by rewrite !lookup_insert_ne. }
  rewrite (Fsetattr_dict _ _ _ _ Hs4), outcome_bind_ok by done.
  set (d5 := <["_data_retrieved" := _]> d4).
  assert (d5 !! "_gcs_attrs" = Some (VDict [])) as Hs5.
  { unfold d5. by rewrite !lookup_insert_ne. }
  rewrite (Fsetattr_dict _ _ _ _ Hs5) by done.
  set (d6 := <["_exists" := VNone]> d5).
  exists d6. split; [done|].
  unfold unfilled, d6, d5, d4, d3, d1, d0.
  repeat split;
    try (repeat first [ rewrite lookup_insert_eq; reflexivity
                      | rewrite lookup_insert_ne by done
                      | by rewrite lookup_empty ]).
  intros name Hname. rewrite !not_elem_of_cons in Hname.
  destruct Hname as (N1 & N2 & N3 & N4 & N5 & N6 & _).
  rewrite !lookup_insert_ne by done. apply lookup_empty.
Qed.


(** ** Resources constructed from raw data *)

(** What [obj_from_data] builds from a representation that defines
    neither [__setattr__] nor [_gcs_attrs]. *)
Lemma obj_from_data_world fuel data credentials retry_params c :
  "__setattr__" ∉ data.*1 → "_gcs_attrs" ∉ data.*1 →
  ∃ d,
    unfilled d ∧ d !! "_credentials" = Some credentials ∧
    d !! "_retry_params"
      = Some (if truthy retry_params then retry_params else get_default) ∧
    obj_from_data fuel data credentials retry_params c =
      (Ok (), World (<["_gcs_attrs" := VDict (merged [] data)]>
                       (<["_data_retrieved" := VBool true]> d)) c).
Proof.
  intros Hk1 Hk2. unfold obj_from_data.
  destruct (Fillable_init_dict credentials retry_params)
    as (d & -> & Hd & Hc & _ & Hrp & _).
  exists d. split; [done|]. split; [done|]. split; [done|].
  destruct Hd as (Hs & Hdr & Hex & Hgd & Hfd & Hsa).
  rewrite bind_eq. unfold getattr at 1.
  rewrite (method_call_class _ _ (World d c) [] Hs fill_with_data_is_method) by done.
  unfold fill_with_data. rewrite fill_items_bind_items.
  rewrite bind_eq, msetattr_eq, (Fsetattr_dict _ _ _ _ Hs) by done.
  unfold getattr.
  rewrite (bind_items_clean _ _ _ []); cbn [self calls];
    rewrite ?map_fst_flatten; try done; try by rewrite lookup_insert_ne.
  by rewrite foldl_assoc_set_map.
Qed.

(** Reads on a populated instance of names the representation does not
    define: a property returns the attribute behind it, any other name
    what the instance dictionary holds. *)
Lemma populated_property_read d data name backing v :
  name ∉ data.*1 → property_backing name = Some backing → backing ∉ data.*1 →
  d !! backing = Some v →
  Fillable_getattribute
    (<["_gcs_attrs" := VDict (merged [] data)]> (<["_data_retrieved" := VBool true]> d))
    name = Ok v.
Proof.
  intros Hn Hp Hb Hv.
  rewrite (getattribute_store _ (merged [] data)) by apply lookup_insert_eq.
  rewrite assoc_get_merged_other by done.
  unfold object_getattribute. rewrite Hp.
  rewrite (getattribute_over_store _ (merged [] data)) by apply lookup_insert_eq.
  rewrite assoc_get_merged_other by done.
  apply object_lookup_dict.
  destruct (property_backing_some _ _ Hp) as [-> | ->]; by rewrite !lookup_insert_ne.
Qed.

Lemma populated_plain_read d data name v :
  name ∉ data.*1 → property_backing name = None →
  (<["_gcs_attrs" := VDict (merged [] data)]> (<["_data_retrieved" := VBool true]> d)
     : pydict) !! name = Some v →
  Fillable_getattribute
    (<["_gcs_attrs" := VDict (merged [] data)]> (<["_data_retrieved" := VBool true]> d))
    name = Ok v.
Proof.
  intros Hn Hp Hv.
  rewrite (getattribute_plain _ (merged [] data)); [|apply lookup_insert_eq| |done].
  - by apply object_lookup_dict.
  - by rewrite assoc_get_merged_other.
Qed.


(** ** Credentials *)

(** X8: assigning credentials equal to the current ones changes nothing:
    neither the credentials held nor the service client are replaced.
    Assigning other credentials binds them and builds a new service
    client for the API version of the instance, and nothing else on the
    instance changes. *)
Theorem credentials_setter_skips_equal d current v :
  d !! "_credentials" = Some current →
  (py_eq v current = true → GCS_setattr "credentials" v d = Ok d) ∧
  (py_eq v current = false →
     ∃ version d',
       GCS_getattribute d "api_version" = Ok version ∧
       GCS_setattr "credentials" v d = Ok d' ∧
       GCS_getattribute d' "credentials" = Ok v ∧
       d' !! "_service" = Some (discovery_build version v) ∧
       ∀ k, k ≠ "_credentials" → k ≠ "_service" → d' !! k = d !! k).
Proof.
  intros Hc.
  assert (GCS_setattr "credentials" v d =
            if py_eq v current then Ok d
            else
              api_version ← object_lookup d "api_version";
              Ok (<["_service" := discovery_build api_version v]>
                    (<["_credentials" := v]> d))) as Hset.
  { unfold GCS_setattr, object_setattr. cbn [String.eqb Ascii.eqb Bool.eqb].
    unfold credentials_setter, GCS_getattribute.
    rewrite (object_getattribute_plain _ d "_credentials") by reflexivity.
    rewrite (object_lookup_dict _ _ _ Hc), outcome_bind_ok.
    destruct (py_eq v current); [done|].
    unfold dict_setattr. rewrite outcome_bind_ok.
    rewrite (object_getattribute_plain _ _ "api_version") by reflexivity.
    rewrite (object_getattribute_plain _ _ "_credentials") by reflexivity.
    rewrite (object_lookup_insert_ne d "_credentials" v "api_version") by done.
    destruct (object_lookup d "api_version") as [version|]; [|done].
    rewrite outcome_bind_ok.
    rewrite (object_lookup_dict _ "_credentials" v) by apply lookup_insert_eq.
    by rewrite !outcome_bind_ok. }
  split; intros Heq; rewrite Hset, Heq; [done|].
  assert (∃ version, object_lookup d "api_version" = Ok version) as [version Hv].
  { unfold object_lookup. destruct (d !! "api_version"); eauto. }
  rewrite Hv, outcome_bind_ok. exists version. eexists.
  split. { unfold GCS_getattribute. by rewrite object_getattribute_plain. }
  split; [done|]. split.
  { unfold GCS_getattribute, object_getattribute.
    cbn [property_backing String.eqb Ascii.eqb Bool.eqb].
    apply object_lookup_dict. rewrite lookup_insert_ne by done. apply lookup_insert_eq. }
  split; [apply lookup_insert_eq|].
  intros k N1 N2. by rewrite !lookup_insert_ne.
Qed.

(** ** Requests *)



Lemma build_request_eq self op headers body url params id auth :
  GCS_getattribute self "_credentials" = Ok (VCredentials id auth) →
  build_request self op headers body url params =
    (u ← match url with
         | Some u => if String.eqb u "" then format_url self else Ok u
         | None => format_url self
         end;
     Ok (Request op u params (<["Authorization" := auth]> (default ∅ headers)) body)).
Proof.
  intros Hc. unfold build_request. rewrite Hc, outcome_bind_ok.
  cbn [authorization]. rewrite outcome_bind_ok.
  assert (match headers with
          | Some h => if bool_decide (h = ∅) then ∅ else h
          | None => ∅
          end = default ∅ headers) as ->; [|done].
  destruct headers as [h|]; [|done]. cbn [default]. by case_bool_decide.
Qed.

(** X10: the URL of a request.  An explicit URL that is not empty is
    used as it is, and then no attribute of the instance is read or
    quoted for it; an empty URL counts as none given; with none given the
    URL is the class's template filled in from the identity attributes,
    among which [credentials] is never substituted, so that the template
    of a class with no other identity attribute is filled in with
    nothing. *)
Theorem request_url self op headers body params id auth :
  GCS_getattribute self "_credentials" = Ok (VCredentials id auth) →
  let headers' := <["Authorization" := auth]> (default ∅ headers) in
  (∀ u, u ≠ "" →
     build_request self op headers body (Some u) params
       = Ok (Request op u params headers' body)) ∧
  build_request self op headers body (Some "") params
    = build_request self op headers body None params ∧
  build_request self op headers body None params
    = (u ← format_url self; Ok (Request op u params headers' body)) ∧
  (GCS_getattribute self "_required_attributes" = Ok (VList [VStr "credentials"]) →
     format_url self
       = (template ← GCS_getattribute self "URL"; percent_format template [])).
Proof.
  intros Hc headers'.
  pose proof (λ url, build_request_eq self op headers body url params id auth Hc) as Hb.
  split.
  { intros u Hu. rewrite Hb. apply String.eqb_neq in Hu. by rewrite Hu. }
  split; [by rewrite !Hb|]. split; [by rewrite Hb|].
  intros Hra. unfold format_url. rewrite Hra, outcome_bind_ok.
  cbn [py_iter]. by rewrite outcome_bind_ok.
Qed.

Lemma GCS_getattribute_other self c name :
  name ≠ "_credentials" → name ≠ "credentials" →
  GCS_getattribute (<["_credentials" := c]> self) name = GCS_getattribute self name.
Proof.
  intros N1 N2. unfold GCS_getattribute, object_getattribute.
  destruct (property_backing name) as [backing|] eqn:Hp.
  - destruct (property_backing_some _ _ Hp) as [-> | ->].
    + by apply object_lookup_insert_ne.
    + unfold property_backing in Hp.
      destruct (String.eqb name "retry_params"); [done|].
      destruct (String.eqb_spec name "credentials"); done.
  - by apply object_lookup_insert_ne.
Qed.

(** X11: the URL the class's template gives does not depend on the
    credentials of the instance: rebinding them leaves it as it is,
    unless the class lists [_credentials] itself as an identity
    attribute. *)
Theorem format_url_ignores_credentials self c names :
  GCS_getattribute self "_required_attributes" = Ok (VList names) →
  VStr "_credentials" ∉ names →
  format_url (<["_credentials" := c]> self) = format_url self.
Proof.
  intros Hra Hnames. unfold format_url.
  rewrite !GCS_getattribute_other by done. rewrite Hra, !outcome_bind_ok.
  cbn [py_iter]. rewrite !outcome_bind_ok.
  assert (mapM (λ x, match x with
                     | VStr n => v ← GCS_getattribute (<["_credentials" := c]> self) n; quote v
                     | _ => Raise TypeError
                     end)
               (List.filter (λ x, negb (existsb (py_eq x) [VStr "credentials"])) names)
          = mapM (λ x, match x with
                       | VStr n => v ← GCS_getattribute self n; quote v
                       | _ => Raise TypeError
                       end)
                 (List.filter (λ x, negb (existsb (py_eq x) [VStr "credentials"])) names))
    as ->; [|done].
  clear Hra. induction names as [|x names IH]; [done|].
  rewrite not_elem_of_cons in Hnames. destruct Hnames as [Hx Hnames].
  cbn [List.filter]. destruct (negb (existsb (py_eq x) [VStr "credentials"])) eqn:Hf.
  - cbn [mapM]. rewrite IH by done.
    destruct x as [| | |n| | | | |]; try done.
    rewrite GCS_getattribute_other; [done|congruence|].
    intros ->. cbn in Hf. done.
  - by apply IH.
Qed.

(** X12: one run of the body of [exists] hands the transport exactly
    one request, a HEAD request with no URL parameters, no body and no
    header besides [Authorization], and takes one answer, whatever that
    answer is. *)
Theorem exists_sends_one_probe self net rq :
  build_request self "HEAD" None VNone None ∅ = Ok rq →
  sent (GCS_exists self net).2 = (sent net ++ [rq])%list ∧
  pending (GCS_exists self net).2 = tail (pending net) ∧
  req_op rq = "HEAD" ∧ req_params rq = ∅ ∧ req_data rq = VNone ∧
  ∀ k, k ≠ "Authorization" → req_headers rq !! k = None.
Proof.
  intros Hb.
  assert ((GCS_exists self net).2 = Network (tail (pending net)) (sent net ++ [rq])) as ->.
  { unfold GCS_exists, try_except. rewrite bind_eq. unfold GCS_request.
    rewrite bind_eq, lift_eq, Hb, bind_eq. unfold requests_request.
    destruct (pending net) as [|[resp|e] rest]; cbn [tail].
    - done.
    - destruct (negb _); [|done]. unfold raise. by destruct (_ || _).
    - by destruct (_ || _). }
  split; [done|]. split; [done|].
  destruct (build_request_headers _ _ _ _ _ _ _ Hb) as (id & auth & Hc & Ha & Hk).
  rewrite (build_request_eq _ _ _ _ _ _ id auth Hc) in Hb.
  destruct (format_url self) as [u|]; [|done].
  rewrite outcome_bind_ok in Hb. injection Hb as <-.
  cbn [req_op req_params req_data req_headers default].
  repeat split. intros k Hne. rewrite lookup_insert_ne by done. apply lookup_empty.
Qed.

(** ** Listings that fail *)





(** ** Construction of a plain resource *)



(** ** After the fetch, or after the resource was found absent *)

Lemma act_closed fuel a w :
  closed (self w) → ordinary a →
  calls (act (S fuel) a w) = calls w ∧ closed (self (act (S fuel) a w)).
Proof.
  intros [Hstate (s & Hs & Hga)] Ha. destruct a as [name|name v]; cbn [act].
  - assert (getattr (S fuel) name w = (Fillable_getattribute (self w) name, w)) as ->.
    { unfold getattr.
      destruct (getattribute_ok_or_missing (self w) s name Hs) as [[v Hv]|Hm].
      - by rewrite (getattr_over_hit _ _ _ _ Hv), Hv.
      - rewrite getattr_over_miss by done. rewrite Hm.
        destruct Hstate; [by apply Fgetattr_settled|by apply Fgetattr_gone]. }
    split; [done|]. split; [done|]. by exists s.
  - destruct Ha as (Hm & Hp & _).
    apply elem_of_machinery in Hm as (N1 & N2 & N3 & _).
    destruct (Fsetattr_roundtrip (self w) s name v Hs Hga N1 Hp)
      as (d' & s' & Hset & Hs' & Hga' & _ & _ & _ & Hst & Hdi & _).
    rewrite msetattr_eq, Hset. cbn [snd self calls]. split; [done|].
    split; [|by exists s'].
    destruct Hstate as [(s0 & Hs0 & Hn & Hd)|(s0 & Hs0 & Hn & Hn' & Hd & He)];
      rewrite Hs in Hs0; injection Hs0 as <-.
    + left. exists s'. split; [done|]. split; [by rewrite Hst|by rewrite Hdi].
    + right. exists s'. split; [done|].
      split; [by rewrite Hst|]. split; [by rewrite Hst|].
      split; by rewrite Hdi.
Qed.

(** X17: once a lazy resource is populated, or has been found absent,
    no sequence of reads and ordinary assignments makes it fetch again:
    the hook is not invoked, whatever is read or assigned, and the
    resource stays populated, or absent. *)
Theorem no_fetch_after_settling fuel actions : ∀ w,
  closed (self w) → Forall ordinary actions →
  calls (run (S fuel) actions w) = calls w ∧
  closed (self (run (S fuel) actions w)).
Proof.
  induction actions as [|a actions IH]; intros w Hw Hall; [done|].
  rewrite list.Forall_cons in Hall. destruct Hall as [Ha Hall].
  destruct (act_closed fuel a w Hw Ha) as [Hc Hw'].
  unfold run. cbn [foldl]. fold (run (S fuel) actions (act (S fuel) a w)).
  destruct (IH _ Hw' Hall) as [Hc' Hw'']. split; [congruence|done].
Qed.

End properties_of_base.

(** ** The properties at work *)

Ltac decide_it := apply (bool_decide_unpack _); vm_compute; exact I.
Ltac in_list := repeat first [apply list_elem_of_here | apply list_elem_of_further].

Lemma fresh_is_constructed :
  Fillable_init (class_ := base_class) (library := plain_library)
    some_credentials VNone = Ok fresh.
Proof.
  destruct (Fillable_init_unfilled (class_ := base_class) (library := plain_library)
              some_credentials VNone) as (d & Hd & _).
  unfold fresh. by rewrite Hd.
Qed.


Lemma fresh_unfilled : unfilled fresh.
Proof. vm_compute. repeat split. Defined.



(** A resource that is not there (C2). *)
Lemma not_found_is_remembered_witness :
  ∃ w1,
    getattr (class_ := base_class) (library := plain_library) (hook := hook_not_found)
      1 "name" (World fresh 0) = (Raise AttributeError, w1) ∧
    calls w1 = 1%nat ∧
    Fillable_getattribute (class_ := base_class) (self w1) "_exists" = Ok (VBool false) ∧
    Fillable_getattribute (class_ := base_class) (self w1) "_data_retrieved"
      = Ok (VBool false) ∧
    ∀ names fuel',
      Forall (unbound (class_ := base_class) (self w1)) names →
      getattrs (class_ := base_class) (library := plain_library) (hook := hook_not_found)
        (S fuel') names w1 = (map (λ _, Raise AttributeError) names, w1).
Proof.
  apply (not_found_is_remembered (class_ := base_class) (library := plain_library)
           (hook := hook_not_found) fresh 0 "name" 0 (Http KNotFound 404 "")).
  - exact fresh_unfilled.
  - vm_compute. reflexivity.
  - reflexivity.
  - reflexivity.
Defined.

(** A refused fetch (C6). *)
Lemma other_errors_propagate_witness :
  getattr (class_ := base_class) (library := plain_library) (hook := hook_bad_request)
    1 "name" (World fresh 0) = (Raise (Http KBadRequest 400 ""), World fresh 1) ∧
  ∀ name' fuel',
    unbound (class_ := base_class) fresh name' →
    (1 < calls (getattr (class_ := base_class) (library := plain_library)
                  (hook := hook_bad_request) (S fuel') name' (World fresh 1)).2)%nat.
Proof.
  apply (other_errors_propagate (class_ := base_class) (library := plain_library)
           (hook := hook_bad_request) fresh 0 "name" 0 (Http KBadRequest 400 "")).
  - exact fresh_unfilled.
  - vm_compute. reflexivity.
  - reflexivity.
  - reflexivity.
Defined.



(** Merging the representation of the test suite into a constructed
    resource (C8). *)
Lemma merge_flattens_single_entry_witness :
  let data := [("name", VStr "my_name");
               ("one_entry_dict", VDict [("value", VStr "1dict")]);
               ("multi_entry_dict", VDict [("1", VInt 1); ("2", VInt 2)])] in
  ∃ w',
    fill_with_data (class_ := base_class) (library := plain_library)
      (getattr_over (class_ := base_class) (λ _, raise AttributeError))
      data (World fresh 0) = (Ok (), w') ∧
    Fillable_getattribute (class_ := base_class) (self w') "name"
      = Ok (VStr "my_name") ∧
    Fillable_getattribute (class_ := base_class) (self w') "one_entry_dict"
      = Ok (VStr "1dict") ∧
    Fillable_getattribute (class_ := base_class) (self w') "multi_entry_dict"
      = Ok (VDict [("1", VInt 1); ("2", VInt 2)]).
Proof.
  intros data.
  destruct (merge_flattens_single_entry (class_ := base_class)
              (library := plain_library) (λ _, raise AttributeError)
              data (World fresh 0)) as (_ & _ & _ & _ & Hread).
  destruct (Hread []) as (w' & Hfill & Hget).
  - vm_compute. reflexivity.
  - vm_compute. reflexivity.
  - reflexivity.
  - reflexivity.
  - decide_it.
  - decide_it.
  - decide_it.
  - exists w'. split; [exact Hfill|].
    split; [|split].
    + apply (Hget "name" (VStr "my_name")). in_list.
    + apply (Hget "one_entry_dict" (VDict [("value", VStr "1dict")])). in_list.
    + apply (Hget "multi_entry_dict" (VDict [("1", VInt 1); ("2", VInt 2)])). in_list.
Defined.

Lemma plain_is_constructed :
  GCS_init (library := plain_library)
    (GCS_setattr (class_ := base_class) (library := plain_library))
    some_credentials VNone ∅ = Ok plain.
Proof.
  destruct (GCS_init_retry_params (class_ := base_class) (library := plain_library)
              some_credentials VNone) as (d & Hd & _).
  unfold plain. by rewrite Hd.
Qed.

(** The request [plain._request()] hands over. *)
Lemma plain_get_request :
  build_request (class_ := base_class) (library := plain_library)
    plain "GET" None VNone None ∅ =
  Ok (Request "GET" "https://www.googleapis.com/storage/v1/b" ∅
        {["Authorization" := "Bearer abc"]} VNone).
Proof. vm_compute. reflexivity. Qed.

(** A response with a body that is not JSON, validated (C5). *)
Lemma request_checks_status_and_body_witness :
  let resp := Response 200 "<html>" (Raise (Error "no JSON")) in
  let out := (GCS_request (class_ := base_class) (library := plain_library)
                plain "GET" None VNone true [200] None ∅
                (Network [Ok resp] [])).1 in
  (status_code resp ∉ [200] →
     out = Raise (create_http_exception (status_code resp) (content resp))) ∧
  ((∃ kind code text, out = Raise (Http kind code text)) → status_code resp ∉ [200]) ∧
  (status_code resp ∈ [200] → true = true → (∃ e, json resp = Raise e) →
     out = Raise (Error ("GCS response is not JSON: " ++ content resp))) ∧
  (status_code resp ∈ [200] → (true = false ∨ ∃ v, json resp = Ok v) →
     out = Ok resp).
Proof.
  intros resp.
  apply (request_checks_status_and_body (class_ := base_class)
           (library := plain_library) plain "GET" None VNone true [200] None ∅
           (Network [Ok resp] [])
           (Request "GET" "https://www.googleapis.com/storage/v1/b" ∅
              {["Authorization" := "Bearer abc"]} VNone) resp []).
  - exact plain_get_request.
  - reflexivity.
Defined.


(** A probe answered with 404 (C7). *)
Lemma exists_follows_probe_witness :
  let net := Network [Ok (Response 404 "Not Found" (Raise (Error "no JSON")))] [] in
  GCS_exists (class_ := base_class) (library := plain_library) plain net =
    (Ok false,
     Network [] [Request "HEAD" "https://www.googleapis.com/storage/v1/b" ∅
                   {["Authorization" := "Bearer abc"]} VNone]).
Proof.
  intros net.
  destruct (exists_follows_probe (class_ := base_class) (library := plain_library)
              plain net (Raise (Http KNotFound 404 "Not Found"))
              (Network [] [Request "HEAD" "https://www.googleapis.com/storage/v1/b" ∅
                             {["Authorization" := "Bearer abc"]} VNone]))
    as (_ & Hfalse & _).
  - vm_compute. reflexivity.
  - apply (Hfalse (Http KNotFound 404 "Not Found")); reflexivity.
Defined.



(** Construction and the setter on the concrete classes (C10). *)
Lemma retry_params_default_and_setter_witness :
  GCS_getattribute (class_ := base_class) plain "retry_params"
    = Ok (get_default (library := plain_library)) ∧
  GCS_setattr (class_ := base_class) (library := plain_library)
    "retry_params" (VInt 1) plain = Raise AssertionError.
Proof.
  destruct (retry_params_default_and_setter (class_ := base_class)
              (library := plain_library)) as (Hnone & _ & _ & _ & _ & _ & Hreject).
  split.
  - destruct (Hnone some_credentials) as (d & Hd & Hr).
    rewrite plain_is_constructed in Hd. injection Hd as <-. exact Hr.
  - apply Hreject; [discriminate|]. intros id. discriminate.
Defined.

(** ** Projects *)

Lemma string_length_append (s t : string) :
  String.length (s ++ t) = (String.length s + String.length t)%nat.
Proof.
  induction s as [|a s IH]; [done|].
  change (S (String.length (s ++ t)) = S (String.length s + String.length t)).
  by rewrite IH.
Qed.

Lemma string_append_cancel_r (x : string) : ∀ s t : string, s ++ x = t ++ x → s = t.
Proof.
  induction s as [|a s IH]; intros [|b t] H.
  - done.
  - apply (f_equal String.length) in H.
    rewrite (string_length_append (String b t)) in H.
    change (String.length x = (S (String.length t) + String.length x)%nat) in H. lia.
  - apply (f_equal String.length) in H.
    rewrite (string_length_append (String a s)) in H.
    change ((S (String.length s) + String.length x)%nat = String.length x) in H. lia.
  - change (String a (s ++ x) = String b (t ++ x)) in H.
    injection H as -> H. by rewrite (IH t H).
Qed.

(** X14: the default bucket name of a project.  A project id that
    counts as false (the empty string, [None]) has none: the property
    returns [None], never the bare suffix; a project id that is a string
    gives the id followed by [.appspot.com], so that different ids give
    different names; any other project id that counts as true raises
    TypeError. *)
Theorem default_bucket_name_of_project :
  (∀ v, truthy v = false → default_bucket_name v = Ok VNone) ∧
  (∀ s, s ≠ "" → default_bucket_name (VStr s) = Ok (VStr (s ++ ".appspot.com"))) ∧
  (∀ v, truthy v = true → (∀ s, v ≠ VStr s) → default_bucket_name v = Raise TypeError) ∧
  (∀ v, default_bucket_name v ≠ Ok (VStr ".appspot.com")) ∧
  (∀ s t, default_bucket_name (VStr s) = default_bucket_name (VStr t) → s = t).
Proof.
  assert (∀ s, s ≠ "" → default_bucket_name (VStr s) = Ok (VStr (s ++ ".appspot.com")))
    as Hstr.
  { intros s Hs. unfold default_bucket_name. cbn [truthy].
    apply String.eqb_neq in Hs. by rewrite Hs. }
  split. { intros v Hv. unfold default_bucket_name. by rewrite Hv. }
  split; [done|]. split.
  { intros v Hv Hs. unfold default_bucket_name. rewrite Hv. cbn [negb].
    destruct v; try done. by destruct (Hs s). }
  split.
  { intros v. unfold default_bucket_name.
    destruct (truthy v) eqn:Hv; cbn [negb]; [|done].
    destruct v as [| | |s| | | | |]; try done.
    cbn [py_add]. intros [= H]. apply (string_append_cancel_r _ s "") in H. by subst s. }
  intros s t H.
  destruct (String.eqb_spec s "") as [->|Hs], (String.eqb_spec t "") as [->|Ht]; [done|..].
  - rewrite (Hstr t) in H by done. done.
  - rewrite (Hstr s) in H by done. done.
  - rewrite !Hstr in H by done. injection H as H. by apply string_append_cancel_r in H.
Qed.

(** ** The members of a listing *)

Lemma mapM_outcome_Forall2 {A B} (f : A → outcome B) (l : list A) : ∀ k,
  mapM f l = Ok k → Forall2 (λ a b, f a = Ok b) l k.
Proof.
  induction l as [|a l IH]; intros k Hk.
  - injection Hk as <-. constructor.
  - cbn [mapM] in Hk. destruct (f a) as [b|] eqn:Hb; [|done].
    rewrite outcome_bind_ok in Hk. destruct (mapM f l) as [k'|]; [|done].
    rewrite outcome_bind_ok in Hk. injection Hk as <-.
    constructor; [done|]. by apply IH.
Qed.

Section members_of_listings.

Context {parent_class child_class : ClassAttrs} {library : Library} {hook : FetchHook}.

(** X15: the members of a page that are lazy resources, each constructed
    from an item that is a mapping and defines none of the instance's own
    names, all carry the credentials of the resource listed and come
    populated; they carry its retry configuration too, unless that is
    [None]: the members of a resource whose retries are disabled get the
    default configuration. *)
Theorem members_carry_credentials url self envelope bs children credentials retry_params :
  GCS_getattribute (class_ := parent_class) self "credentials" = Ok credentials →
  GCS_getattribute (class_ := parent_class) self "retry_params" = Ok retry_params →
  py_get envelope "items" (VList []) = Ok (VList bs) →
  Forall plain_item bs →
  page_children (class_ := parent_class)
    (child_info := lazy_children (class_ := child_class) url) self envelope
    = Ok children →
  length children = length bs ∧
  Forall (λ child : pydict,
            Fillable_getattribute (class_ := child_class) child "credentials"
              = Ok credentials ∧
            Fillable_getattribute (class_ := child_class) child "retry_params"
              = Ok (if truthy retry_params then retry_params else get_default) ∧
            Fillable_getattribute (class_ := child_class) child "_data_retrieved"
              = Ok (VBool true))
         children.
Proof.
  intros Hc Hrp Hitems Hplain Hpage.
  unfold page_children in Hpage. rewrite Hitems, outcome_bind_ok in Hpage.
  cbn [py_iter] in Hpage. rewrite outcome_bind_ok in Hpage.
  apply mapM_outcome_Forall2 in Hpage.
  split; [symmetry; by eapply Forall2_length|].
  clear Hitems. induction Hpage as [|b child bs children Hb _ IH]; [constructor|].
  rewrite list.Forall_cons in Hplain. destruct Hplain as [Hitem Hplain].
  constructor; [|by apply IH].
  rewrite Hc, outcome_bind_ok, Hrp, outcome_bind_ok in Hb.
  cbn [child_obj_from_data lazy_children] in Hb.
  destruct b as [| | | | |data| | |]; try done.
  destruct (Hitem data eq_refl) as [Hnd Hkeys].
  assert (∀ k, k ∈ own_names → k ∉ data.*1) as Hk by done.
  assert (∀ k, In k own_names → k ∉ data.*1) as Hin.
  { intros k Hi. by apply Hk, list_elem_of_In. }
  destruct (obj_from_data_world (class_ := child_class) 1 data credentials
              retry_params 0) as (d & _ & Hcred & Hretry & Hw).
  1-2: apply Hin; simpl; auto 10.
  rewrite Hw in Hb. injection Hb as <-.
  split; [|split].
  - apply (populated_property_read (class_ := child_class) _ _ _ "_credentials");
      try done; apply Hin; simpl; auto 10.
  - apply (populated_property_read (class_ := child_class) _ _ _ "_retry_params");
      try done; apply Hin; simpl; auto 10.
  - apply (populated_plain_read (class_ := child_class));
      [apply Hin; simpl; auto 10|done|].
    rewrite lookup_insert_ne by done. apply lookup_insert_eq.
Qed.

End members_of_listings.

(** ** The further properties at work *)



(** A size assigned before the fetch stays in the instance dictionary,
    while reads return the fetched size (X3). *)
Lemma fetch_keeps_instance_dictionary_witness :
  let w1 := (getattr (class_ := base_class) (library := plain_library)
               (hook := hook_found) 2 "name"
               (World (<["size" := VInt 1]> fresh) 0)).2 in
  self w1 !! "size" = Some (VInt 1) ∧
  Fillable_getattribute (class_ := base_class) (self w1) "size" = Ok (VInt 5).
Proof.
  destruct (fetch_keeps_instance_dictionary (class_ := base_class)
              (library := plain_library) (hook := hook_found)
              (<["size" := VInt 1]> fresh) 0 "name" 0
              [("size", VDict [("precise", VInt 5)]); ("name", VStr "n")])
    as (Hstore & Hdict).
  - apply unfilled_insert; [exact fresh_unfilled|decide_it].
  - vm_compute. reflexivity.
  - reflexivity.
  - decide_it.
  - decide_it.
  - decide_it.
  - intros w1. split.
    + unfold w1. rewrite Hdict by discriminate. apply lookup_insert_eq.
    + unfold w1. rewrite (getattribute_store _ _ _ Hstore). reflexivity.
Defined.


(** A number is no retry configuration (X5). *)
Lemma lazy_retry_params_setter_witness :
  Fillable_setattr (class_ := base_class) (library := plain_library)
    "retry_params" (VInt 1) false fresh = Raise AssertionError.
Proof.
  destruct (lazy_retry_params_setter (class_ := base_class) (library := plain_library)
              fresh [] (VInt 1)) as (_ & Hreject & _).
  - vm_compute. reflexivity.
  - reflexivity.
  - apply Hreject; reflexivity.
Defined.


(** Assigning a plain resource the credentials it has (X8). *)
Lemma credentials_setter_skips_equal_witness :
  GCS_setattr (class_ := base_class) (library := plain_library)
    "credentials" some_credentials plain = Ok plain.
Proof.
  destruct (credentials_setter_skips_equal (class_ := base_class)
              (library := plain_library) plain some_credentials some_credentials)
    as (Hsame & _).
  - vm_compute. reflexivity.
  - apply Hsame. reflexivity.
Defined.


(** A request to a URL of the caller's (X10). *)
Lemma request_url_witness :
  build_request (class_ := base_class) (library := plain_library)
    plain "GET" None VNone (Some "https://example.org/o") ∅
  = Ok (Request "GET" "https://example.org/o" ∅
          (<["Authorization" := "Bearer abc"]> ∅) VNone).
Proof.
  destruct (request_url (class_ := base_class) (library := plain_library)
              plain "GET" None VNone ∅ 2 "Bearer abc") as (Hurl & _).
  - vm_compute. reflexivity.
  - apply Hurl. discriminate.
Defined.

(** The URL of a plain resource, with and without its credentials (X11). *)
Lemma format_url_ignores_credentials_witness :
  format_url (class_ := base_class) (library := plain_library)
    (<["_credentials" := VNone]> plain)
  = format_url (class_ := base_class) (library := plain_library) plain.
Proof.
  apply (format_url_ignores_credentials (class_ := base_class)
           (library := plain_library) plain VNone [VStr "credentials"]).
  - vm_compute. reflexivity.
  - apply not_elem_of_cons. split; [discriminate|apply not_elem_of_nil].
Defined.

(** The probe of a plain resource (X12). *)
Lemma exists_sends_one_probe_witness :
  let net := Network [Ok (Response 200 "" (Ok (VDict []))); Ok forbidden] [] in
  let rq := Request "HEAD" "https://www.googleapis.com/storage/v1/b" ∅
              {["Authorization" := "Bearer abc"]} VNone in
  sent (GCS_exists (class_ := base_class) (library := plain_library) plain net).2
    = [rq] ∧
  pending (GCS_exists (class_ := base_class) (library := plain_library) plain net).2
    = [Ok forbidden].
Proof.
  intros net rq.
  destruct (exists_sends_one_probe (class_ := base_class) (library := plain_library)
              plain net rq) as (Hsent & Hpending & _).
  - vm_compute. reflexivity.
  - split; [exact Hsent|exact Hpending].
Defined.


(** The members listed from a resource whose retries are disabled (X15). *)
Lemma members_carry_credentials_witness :
  let parent := <["_retry_params" := VNone]> plain in
  let children :=
    match page_children (class_ := base_class)
            (child_info := lazy_children (class_ := base_class)
                             (library := plain_library) (hook := hook_not_found) "u")
            parent (VDict [("items", VList [item "a"])]) with
    | Ok children => children
    | Raise _ => []
    end in
  length children = 1%nat ∧
  Forall (λ child : pydict,
            Fillable_getattribute (class_ := base_class) child "retry_params"
              = Ok (get_default (library := plain_library)))
         children.
Proof.
  intros parent children.
  assert (succeeds (page_children (class_ := base_class)
            (child_info := lazy_children (class_ := base_class)
                             (library := plain_library) (hook := hook_not_found) "u")
            parent (VDict [("items", VList [item "a"])])) = true) as Hok.
  { vm_compute. reflexivity. }
  unfold children.
  destruct (page_children _ _) as [cs|] eqn:Hpage; [|discriminate].
  destruct (members_carry_credentials (parent_class := base_class)
              (child_class := base_class) (library := plain_library)
              (hook := hook_not_found) "u" parent
              (VDict [("items", VList [item "a"])]) [item "a"] cs
              some_credentials VNone) as [Hlen Hall].
  - vm_compute. reflexivity.
  - vm_compute. reflexivity.
  - reflexivity.
  - apply Forall_singleton. intros data [= <-]. split; [decide_it|].
    intros k Hk. unfold own_names in Hk.
    repeat (apply elem_of_cons in Hk as [->|Hk]; [decide_it|]).
    by apply elem_of_nil in Hk.
  - exact Hpage.
  - split; [exact Hlen|].
    eapply Forall_impl; [exact Hall|]. intros child (_ & Hretry & _). exact Hretry.
Defined.


(** A resource found absent is assigned a size and read (X17). *)
Lemma no_fetch_after_settling_witness :
  calls (run (class_ := base_class) (library := plain_library) (hook := hook_found)
           1 [Assign "size" (VInt 1); Read "size"; Read "name"] absent)
  = calls absent.
Proof.
  destruct (no_fetch_after_settling (class_ := base_class) (library := plain_library)
              (hook := hook_found) 0
              [Assign "size" (VInt 1); Read "size"; Read "name"] absent)
    as [Hcalls _].
  - split.
    + right. exists []. vm_compute. repeat split.
    + exists []. vm_compute. repeat split.
  - repeat apply Forall_cons_2; [| | |apply Forall_nil_2]; try exact I.
    split; [decide_it|]. split; [reflexivity|decide_it].
  - exact Hcalls.
Defined.
